(** * Transaction dashboard backend (app.js): model and properties

    The Express handlers of app.js are embedded as functions over an
    explicit snapshot of the [Transaction] collection.  What the handlers
    delegate to the platform is modelled in its own name space:

    - [JS]: the coercions the handlers apply to query parameters
      ([parseInt], [parseFloat], truthiness, [Math.ceil] of a quotient);
    - [Regex]: the fragment of the regular expressions that [$regex]
      with [$options: 'i'] receives from the [search] parameter;
    - [Mongo]: [find]/[skip]/[limit], [countDocuments] and the aggregation
      stages [$match], [$group] and [$bucket];
    - [App]: the handlers themselves, one definition per route;
    - [Dashboard]: the listing, the pagination and the chart of
      TransactionDashboard.js, as functions on the state of the component.

    Strings are ASCII strings, every field of the schema is present in a
    stored document, and the collection is listed in insertion order.
    Numbers that are not integers by construction are the binary64
    numbers of JavaScript and of the store, with their rounding, their
    two zeros, their infinities and NaN: the primitive [float].  A body
    is the value that the handler gives to [res.json]. *)

From Stdlib Require Import Floats.
From Stdlib Require Import ZArith Bool Ascii String List Lia.
From Stdlib Require Import Sorted.
From stdpp Require Import base list strings gmap.

Local Open Scope Z_scope.

(** ** The document schema *)

(** A [Date] as the aggregation operator [$month] sees it: the calendar
    fields of the stored instant. *)
Record Date := mkDate { year : Z; monthOfYear : Z; dayOfMonth : Z }.

(** [transactionSchema].  The field [id] is called [txid] here, [id]
    being the identity function. *)
Record Transaction := mkTransaction {
  txid : Z;
  title : string;
  price : float;
  description : string;
  category : string;
  image : string;
  sold : bool;
  dateOfSale : Date
}.

(** What a handler sends: [res.json(body)] or
    [res.status(500).json({ error })]. *)
Inductive response (A : Type) : Type :=
| Json (body : A)
| Status500 (error : string).
Arguments Json {A} body.
Arguments Status500 {A} error.

(** ** JavaScript coercions *)
Module JS.

Definition code (c : ascii) : Z := Z.of_N (N_of_ascii c).

(** White space that [parseInt] and [parseFloat] skip (ASCII part). *)
Definition is_white (c : ascii) : bool :=
  ((9 <=? code c) && (code c <=? 13)) || (code c =? 32).

Fixpoint skip_white (s : string) : string :=
  match s with
  | String c s' => if is_white c then skip_white s' else s
  | EmptyString => s
  end.

(** An optional sign: [true] for a minus. *)
Definition take_sign (s : string) : bool * string :=
  match s with
  | String "-"%char s' => (true, s')
  | String "+"%char s' => (false, s')
  | _ => (false, s)
  end.

Definition digit (radix : Z) (c : ascii) : option Z :=
  let n := code c in
  let v := if (48 <=? n) && (n <=? 57) then Some (n - 48)
           else if (97 <=? n) && (n <=? 102) then Some (n - 87)
           else if (65 <=? n) && (n <=? 70) then Some (n - 55)
           else None in
  match v with
  | Some d => if d <? radix then Some d else None
  | None => None
  end.

(** The value of the longest prefix of digits, [acc] being the value
    read so far ([None]: no digit yet). *)
Fixpoint digits_prefix (radix : Z) (s : string) (acc : option Z) : option Z :=
  match s with
  | String c s' =>
      match digit radix c with
      | Some d => digits_prefix radix s' (Some (radix * default 0 acc + d))
      | None => acc
      end
  | EmptyString => acc
  end.

(** [parseInt(s)] with no radix argument; [None] is [NaN]. *)
Definition parseInt (s : string) : option Z :=
  let (neg, s2) := take_sign (skip_white s) in
  let (radix, s3) :=
    match s2 with
    | String "0"%char (String "x"%char r) => (16, r)
    | String "0"%char (String "X"%char r) => (16, r)
    | _ => (10, s2)
    end in
  match digits_prefix radix s3 None with
  | Some n => Some (if neg : bool then - n else n)
  | None => None
  end.

(** A query parameter is a string or [undefined]; [parseInt] converts
    its argument to a string first. *)
Definition parseInt_param (p : option string) : option Z :=
  parseInt (default "undefined"%string p).

(** Truthiness of a query parameter: [undefined] and the empty string
    are falsy. *)
Definition truthy (p : option string) : bool :=
  match p with
  | Some (String _ _) => true
  | _ => false
  end.

(** The longest prefix of decimal digits: its digits read as a number,
    how many they are, and the rest. *)
Fixpoint span_digits (s : string) (acc : Z) (n : nat) : Z * nat * string :=
  match s with
  | String c s' =>
      match digit 10 c with
      | Some d => span_digits s' (10 * acc + d) (S n)
      | None => (acc, n, s)
      end
  | EmptyString => (acc, n, s)
  end.

(** The exponent part: [e] or [E], an optional sign and at least one
    digit; anything else is not part of the literal. *)
Definition exponent (s : string) : Z :=
  match s with
  | String c s' =>
      if (code c =? 101) || (code c =? 69) then
        let (neg, s2) := take_sign s' in
        match span_digits s2 0 0 with
        | (_, O, _) => 0
        | (e, S _, _) => if neg then - e else e
        end
      else 0
  | EmptyString => 0
  end.

(** The binary64 number nearest to the fraction [n / d], a tie going to
    the even mantissa, for [0 <= n] and [0 < d]: the quotient is taken
    with 53 bits, or with the bits that the least exponent leaves, and
    rounded on the remainder; beyond the largest number it is
    [Infinity]. *)
Definition nearest_double (n d : Z) : float :=
  if n =? 0 then 0%float
  else
    let e1 := Z.log2 n - Z.log2 d - 53 in
    let scaled e := if e <? 0 then (n * 2 ^ (- e), d) else (n, d * 2 ^ e) in
    let e2 := let (a, b) := scaled e1 in
              if a / b <? 2 ^ 53 then e1 else e1 + 1 in
    let e := Z.max e2 (-1074) in
    let (a, b) := scaled e in
    let q := a / b in
    let r := a mod b in
    let up := (b <? 2 * r) || ((b =? 2 * r) && Z.odd q) in
    Z.ldexp (of_uint63 (Uint63.of_Z (if up then q + 1 else q))) e.

(** [parseFloat(s)]: the longest prefix that is a decimal literal, as
    the number nearest to its value; [NaN] when there is none.  With a
    decimal exponent from 310 on the value is beyond the largest number,
    and with all its digits after the 330th decimal place it is nearer
    to 0 than to any other number: there the quotient is not taken. *)
Definition parseFloat (s : string) : float :=
  let (neg, s2) := take_sign (skip_white s) in
  if String.prefix "Infinity" s2 then (if neg then neg_infinity else infinity)
  else
    let '(ip, ni, s3) := span_digits s2 0 0 in
    let '(m, nf, s4) :=
      match s3 with
      | String "."%char r =>
          let '(m, nf, r') := span_digits r ip 0 in
          match ni, nf with
          | O, O => (ip, O, s3)
          | _, _ => (m, nf, r')
          end
      | _ => (ip, O, s3)
      end in
    match ni, nf with
    | O, O => nan
    | _, _ =>
        let k := exponent s4 - Z.of_nat nf in
        let v := if m =? 0 then 0%float
                 else if 310 <=? k then infinity
                 else if k + Z.of_nat (ni + nf) <? -330 then 0%float
                 else if k <? 0 then nearest_double m (10 ^ (- k))
                 else nearest_double (m * 10 ^ k) 1 in
        if neg then (- v)%float else v
    end.

(** [x || 0]: [NaN] and the two zeros are falsy. *)
Definition or_zero (x : float) : float :=
  if is_nan x || is_zero x then 0%float else x.

(** [Math.ceil(total / perPage)] on integers; [None] stands for the
    [Infinity] or [NaN] of a division by zero, which [res.json] writes
    as [null]. *)
Definition ceil_div (total perPage : Z) : option Z :=
  if perPage =? 0 then None else Some (- ((- total) / perPage)).

End JS.

(** ** Regular expressions of [$regex] with [$options: 'i']

    The fragment modelled: a sequence of items, each an ordinary
    character, an escaped punctuation character or a dot, optionally
    followed by one of the quantifiers [*], [+] and [?].  Groups,
    alternation, classes, anchors, counted repetition and escapes of
    letters or digits are outside the fragment: [compile] answers
    [Unmodelled] for them and the theorems say nothing there. *)
Module Regex.

Inductive atom : Type :=
| Lit (c : ascii)
| AnyChar.

Inductive quantifier : Type := Once | ZeroOrOne | ZeroOrMore | OneOrMore.

Definition piece : Type := atom * quantifier.

Inductive token : Type :=
| TAtom (a : atom)
| TQuant (q : quantifier)
| TBackslashAtEnd
| TOther.

Inductive compiled : Type :=
| Pattern (ps : list piece)
| Malformed
| Unmodelled.

Definition is_alnum (c : ascii) : bool :=
  let n := JS.code c in
  ((48 <=? n) && (n <=? 57)) || ((65 <=? n) && (n <=? 90))
  || ((97 <=? n) && (n <=? 122)).

(** The characters with a meaning of their own in a pattern. *)
Definition is_meta (c : ascii) : bool :=
  existsb (Ascii.eqb c) (list_ascii_of_string "\^$.|?*+()[]{}").

Definition token_of (c : ascii) : token :=
  if Ascii.eqb c "." then TAtom AnyChar
  else if Ascii.eqb c "*" then TQuant ZeroOrMore
  else if Ascii.eqb c "+" then TQuant OneOrMore
  else if Ascii.eqb c "?" then TQuant ZeroOrOne
  else if is_meta c then TOther
  else TAtom (Lit c).

Fixpoint tokens (s : string) : list token :=
  match s with
  | EmptyString => []
  | String c s1 =>
      if Ascii.eqb c "\" then
        match s1 with
        | EmptyString => [TBackslashAtEnd]
        | String c2 s2 =>
            (if is_alnum c2 then TOther else TAtom (Lit c2)) :: tokens s2
        end
      else token_of c :: tokens s1
  end.

(** Items with their quantifiers.  A quantifier with nothing to repeat,
    or a backslash that ends the pattern, is an error of the pattern;
    a quantifier after a quantifier (lazy, possessive) is outside the
    fragment. *)
Fixpoint pieces (ts : list token) : compiled :=
  match ts with
  | [] => Pattern []
  | TAtom a :: rest =>
      match rest with
      | TQuant q :: rest' =>
          match rest' with
          | TQuant _ :: _ => Unmodelled
          | _ =>
              match pieces rest' with
              | Pattern ps => Pattern ((a, q) :: ps)
              | r => r
              end
          end
      | _ =>
          match pieces rest with
          | Pattern ps => Pattern ((a, Once) :: ps)
          | r => r
          end
      end
  | TQuant _ :: _ => Malformed
  | TBackslashAtEnd :: _ => Malformed
  | TOther :: _ => Unmodelled
  end.

Definition is_other (t : token) : bool :=
  match t with TOther => true | _ => false end.

Definition compile (pattern : string) : compiled :=
  let ts := tokens pattern in
  if existsb is_other ts then Unmodelled else pieces ts.

(** Caseless comparison of ASCII letters. *)
Definition lower (c : ascii) : ascii :=
  let n := JS.code c in
  if (65 <=? n) && (n <=? 90) then ascii_of_N (Z.to_N (n + 32)) else c.

(** A dot matches every character but a line feed. *)
Definition atom_matches (a : atom) (d : ascii) : bool :=
  match a with
  | Lit c => Ascii.eqb (lower c) (lower d)
  | AnyChar => negb (JS.code d =? 10)
  end.

(** Does a prefix of [s] match the items [ps]? *)
Fixpoint match_here (ps : list piece) (s : string) : bool :=
  match ps with
  | [] => true
  | (a, q) :: ps' =>
      let many :=
        fix many (s : string) : bool :=
          match_here ps' s
          || match s with
             | String d s' => atom_matches a d && many s'
             | EmptyString => false
             end in
      match q with
      | Once =>
          match s with
          | String d s' => atom_matches a d && match_here ps' s'
          | EmptyString => false
          end
      | ZeroOrOne =>
          match_here ps' s
          || match s with
             | String d s' => atom_matches a d && match_here ps' s'
             | EmptyString => false
             end
      | ZeroOrMore => many s
      | OneOrMore =>
          match s with
          | String d s' => atom_matches a d && many s'
          | EmptyString => false
          end
      end
  end.

(** An unanchored pattern matches when it matches at some position. *)
Fixpoint search (ps : list piece) (s : string) : bool :=
  match_here ps s
  || match s with
     | String _ s' => search ps s'
     | EmptyString => false
     end.

End Regex.

(** ** The document store *)
Module Mongo.

(** A collection in natural (insertion) order. *)
Abbreviation collection := (list Transaction).

(** What an operation on the collection comes to: a result, a rejected
    promise (the server refuses the query), or a query outside the
    modelled fragment. *)
Inductive reply (A : Type) : Type :=
| Done (a : A)
| Rejected
| Unmodelled.
Arguments Done {A} a.
Arguments Rejected {A}.
Arguments Unmodelled {A}.

(** [{ $month: '$dateOfSale' }] *)
Definition month_op (t : Transaction) : Z := monthOfYear (dateOfSale t).

(** [$expr: { $eq: [{ $month: '$dateOfSale' }, n] }], where [n] may be
    [NaN], which no month equals. *)
Definition expr_month_eq (n : option Z) (t : Transaction) : bool :=
  match n with
  | Some m => month_op t =? m
  | None => false
  end.

(** [{ price: v }] for a number [v] that is not [NaN]: equality of
    numbers, for which the two zeros are one. *)
Definition price_is (v : float) (t : Transaction) : bool :=
  (price t =? v)%float.

(** The three alternatives of [$or], which share the search text. *)
Record search_clause := mkSearch { pattern : string; price_value : float }.

(** The query object the listing builds: [$expr] and [$or], each
    present or not. *)
Record query := mkQuery {
  expr : option (option Z);
  or : option search_clause
}.

Inductive prepared : Type :=
| Predicate (p : Transaction -> bool)
| Invalid
| Beyond.

Definition expr_holds (f : query) (t : Transaction) : bool :=
  match expr f with
  | Some n => expr_month_eq n t
  | None => true
  end.

(** The predicate a query object denotes; an invalid regular
    expression makes the server refuse the query. *)
Definition prepare (f : query) : prepared :=
  match or f with
  | None => Predicate (expr_holds f)
  | Some c =>
      match Regex.compile (pattern c) with
      | Regex.Pattern ps =>
          Predicate (fun t =>
            expr_holds f t
            && (Regex.search ps (title t)
                || Regex.search ps (description t)
                || price_is (price_value c) t))
      | Regex.Malformed => Invalid
      | Regex.Unmodelled => Beyond
      end
  end.

(** [.limit(n)]: zero is no limit, a negative limit is its absolute
    value. *)
Definition limit (n : Z) (l : list Transaction) : list Transaction :=
  if n =? 0 then l else take (Z.abs_nat n) l.

(** [Model.find(f).skip(s).limit(n)]; a negative skip is refused. *)
Definition find (f : query) (s n : Z) (docs : collection)
  : reply (list Transaction) :=
  match prepare f with
  | Predicate p =>
      if s <? 0 then Rejected
      else Done (limit n (drop (Z.to_nat s) (filter (fun t => p t) docs)))
  | Invalid => Rejected
  | Beyond => Unmodelled
  end.

(** [Model.countDocuments(f)] *)
Definition countDocuments (f : query) (docs : collection) : reply nat :=
  match prepare f with
  | Predicate p => Done (length (filter (fun t => p t) docs))
  | Invalid => Rejected
  | Beyond => Unmodelled
  end.

(** The [$match] stage of the three aggregations. *)
Definition match_month (n : option Z) (docs : collection) : list Transaction :=
  filter (fun t => expr_month_eq n t) docs.

(** A document of a counting [$group] or [$bucket]. *)
Record counted (K : Type) := mkCounted { _id : K; count : nat }.
Arguments mkCounted {K} _id count.
Arguments _id {K} c.
Arguments count {K} c.

(** The document of [$group] with [_id: null] and the three sums of
    the statistics. *)
Record totals := mkTotals {
  totalSaleAmount : float;
  totalSoldItems : nat;
  totalNotSoldItems : nat
}.

(** One step of the accumulators:
    [$sum: { $cond: [{ $eq: ['$sold', true] }, '$price', 0] }] and the
    two conditional counts.  The sum is taken in binary64: the operand
    of each document is added to the sum so far, in the order of the
    documents, and every addition is rounded. *)
Definition accumulate (acc : totals) (t : Transaction) : totals :=
  {| totalSaleAmount :=
       (totalSaleAmount acc + (if Bool.eqb (sold t) true then price t else 0))%float;
     totalSoldItems :=
       (totalSoldItems acc + (if Bool.eqb (sold t) true then 1 else 0))%nat;
     totalNotSoldItems :=
       (totalNotSoldItems acc + (if Bool.eqb (sold t) false then 1 else 0))%nat |}.

(** [$group] with [_id: null]: one document when there is input, none
    otherwise. *)
Definition group_null (docs : list Transaction) : list totals :=
  match docs with
  | [] => []
  | _ => [fold_left accumulate docs (mkTotals 0 0 0)]
  end.

(** The [_id] of a bucket: its lower boundary, or the [default]. *)
Inductive bucket_id : Type :=
| Lower (b : float)
| Default (label : string).

(** The bucket of a value: the boundaries [lo, hi) around it.  [NaN]
    is in none. *)
Fixpoint bucket_of (boundaries : list float) (x : float) : option float :=
  match boundaries with
  | lo :: (hi :: _) as rest =>
      if (lo <=? x)%float && negb (hi <=? x)%float then Some lo
      else bucket_of rest x
  | _ => None
  end.

Definition in_bucket (boundaries : list float) (b : option float)
    (t : Transaction) : bool :=
  match bucket_of boundaries (price t), b with
  | Some lo, Some lo' => (lo =? lo')%float
  | None, None => true
  | _, _ => false
  end.

(** The lower boundaries, in order: every boundary but the last. *)
Fixpoint lowers (boundaries : list float) : list float :=
  match boundaries with
  | lo :: (_ :: _) as rest => lo :: lowers rest
  | _ => []
  end.

Definition nonempty {K : Type} (c : counted K) : bool :=
  negb (Nat.eqb (count c) 0).

(** [$bucket] on the price with [count: { $sum: 1 }]: one document per
    bucket that received a document, sorted by [_id], where the
    numeric boundaries come before the string of the default. *)
Definition bucket (boundaries : list float) (dflt : string)
    (docs : list Transaction) : list (counted bucket_id) :=
  let tally b := length (filter (fun t => in_bucket boundaries b t) docs) in
  List.filter nonempty
    (map (fun lo => mkCounted (Lower lo) (tally (Some lo))) (lowers boundaries)
     ++ [mkCounted (Default dflt) (tally None)]).

(** [$group] with [_id: '$category'] and [count: { $sum: 1 }], as a
    finite map from the key to its count. *)
Definition group_category (docs : list Transaction) : gmap string nat :=
  foldr (fun t m => <[category t := S (default O (m !! category t))]> m) ∅ docs.

(** The documents of the group, in the order the map lists them (the
    server promises none). *)
Definition group_docs (m : gmap string nat) : list (counted string) :=
  (fun kc => mkCounted kc.1 kc.2) <$> map_to_list m.

End Mongo.

(** ** Requests and response bodies *)

(** [req.query] of the listing.  [month] and [search] are strings when
    present; [page] and [perPage] are the integers they denote. *)
Module Req.
Record query := mk {
  month : option string;
  search : option string;
  page : option Z;
  perPage : option Z
}.
End Req.

(** The body of /api/transactions. *)
Module Listing.
Record t := mk {
  transactions : list Transaction;
  total : nat;
  page : Z;
  perPage : Z;
  totalPages : option Z
}.
End Listing.

(** The body of /api/statistics: the document of the group, which
    carries [_id: null], or the literal of zeros, which does not. *)
Module Statistics.
Record t := mk {
  with_id : bool;
  totalSaleAmount : float;
  totalSoldItems : nat;
  totalNotSoldItems : nat
}.
End Statistics.

(** An entry of the body of /api/bar-chart. *)
Module Bar.
Record t := mk { range : string; count : nat }.
End Bar.

(** The body of /api/combined-data: the four bodies as parsed by
    [res.json()], whatever their status, each taken for the value it was
    written from. *)
Module Combined.
Record t := mk {
  transactions : response Listing.t;
  statistics : response Statistics.t;
  barChart : response (list Bar.t);
  pieChart : response (list (Mongo.counted string))
}.
End Combined.

(** ** The handlers *)
Module App.

(** [array.forEach((item, index) => ...)] with the effect of the
    callback on [st] threaded through. *)
Fixpoint forEach {A St : Type} (callback : St -> A -> nat -> St)
    (items : list A) (index : nat) (st : St) : St :=
  match items with
  | [] => st
  | item :: rest => forEach callback rest (S index) (callback st item index)
  end.

(** The query object of /api/transactions. *)
Definition build_query (month search : option string) : Mongo.query :=
  {| Mongo.expr :=
       if JS.truthy month then Some (JS.parseInt_param month) else None;
     Mongo.or :=
       match search with
       | Some s =>
           if JS.truthy search
           then Some (Mongo.mkSearch s (JS.or_zero (JS.parseFloat s)))
           else None
       | None => None
       end |}.

(** GET /api/transactions; [None] when the search text is a pattern
    outside the modelled fragment. *)
Definition api_transactions (docs : Mongo.collection) (q : Req.query)
  : option (response Listing.t) :=
  let page := default 1 (Req.page q) in
  let perPage := default 10 (Req.perPage q) in
  let query := build_query (Req.month q) (Req.search q) in
  match Mongo.find query ((page - 1) * perPage) perPage docs with
  | Mongo.Done transactions =>
      match Mongo.countDocuments query docs with
      | Mongo.Done total =>
          Some (Json {| Listing.transactions := transactions;
                        Listing.total := total;
                        Listing.page := page;
                        Listing.perPage := perPage;
                        Listing.totalPages :=
                          JS.ceil_div (Z.of_nat total) perPage |})
      | Mongo.Rejected => Some (Status500 "Failed to fetch transactions")
      | Mongo.Unmodelled => None
      end
  | Mongo.Rejected => Some (Status500 "Failed to fetch transactions")
  | Mongo.Unmodelled => None
  end.

(** GET /api/statistics *)
Definition api_statistics (docs : Mongo.collection) (q : Req.query)
  : response Statistics.t :=
  let month := Req.month q in
  let stats :=
    Mongo.group_null (Mongo.match_month (JS.parseInt_param month) docs) in
  Json match stats !! O with
       | Some s => Statistics.mk true (Mongo.totalSaleAmount s)
                     (Mongo.totalSoldItems s) (Mongo.totalNotSoldItems s)
       | None => Statistics.mk false 0 0 0
       end.

Definition boundaries : list float :=
  [0; 101; 201; 301; 401; 501; 601; 701; 801; 901]%float.

Definition result_template : list Bar.t :=
  [ Bar.mk "0 - 100" 0; Bar.mk "101 - 200" 0; Bar.mk "201 - 300" 0;
    Bar.mk "301 - 400" 0; Bar.mk "401 - 500" 0; Bar.mk "501 - 600" 0;
    Bar.mk "601 - 700" 0; Bar.mk "701 - 800" 0; Bar.mk "801 - 900" 0;
    Bar.mk "901 - above" 0 ].

(** The callback of [barChartData.forEach]:
    [if (index < result.length) result[index].count = item.count]. *)
Definition assign_count (result : list Bar.t)
    (item : Mongo.counted Mongo.bucket_id) (index : nat) : list Bar.t :=
  if (index <? length result)%nat
  then alter (fun b => Bar.mk (Bar.range b) (Mongo.count item)) index result
  else result.

(** GET /api/bar-chart *)
Definition api_bar_chart (docs : Mongo.collection) (q : Req.query)
  : response (list Bar.t) :=
  let month := Req.month q in
  let barChartData :=
    Mongo.bucket boundaries "901-above"
      (Mongo.match_month (JS.parseInt_param month) docs) in
  Json (forEach assign_count barChartData O result_template).

(** GET /api/pie-chart *)
Definition api_pie_chart (docs : Mongo.collection) (q : Req.query)
  : response (list (Mongo.counted string)) :=
  let month := Req.month q in
  Json (Mongo.group_docs
          (Mongo.group_category
             (Mongo.match_month (JS.parseInt_param month) docs))).

(** Characters that a query string carries to [req.query] as they
    are. *)
Definition url_plain_char (c : ascii) : bool :=
  Regex.is_alnum c
  || existsb (Ascii.eqb c) (list_ascii_of_string "-._~").

Definition url_plain (s : string) : bool :=
  forallb url_plain_char (list_ascii_of_string s).

(** The value of [month] that a route receives from the URL
    [...?month=${month}]: the text of the template literal, where
    [undefined] is written out.  [None] when the text has characters
    that a query string does not carry as they are. *)
Definition interpolated (month : option string) : option (option string) :=
  let text := default "undefined"%string month in
  if url_plain text then Some (Some text) else None.

(** GET /api/combined-data: the four routes are requested with the
    month alone and their bodies assembled. *)
Definition api_combined_data (docs : Mongo.collection) (q : Req.query)
  : option (response Combined.t) :=
  let month := Req.month q in
  match interpolated month with
  | Some m =>
      let request := Req.mk m None None None in
      match api_transactions docs request with
      | Some transactions =>
          Some (Json {| Combined.transactions := transactions;
                        Combined.statistics := api_statistics docs request;
                        Combined.barChart := api_bar_chart docs request;
                        Combined.pieChart := api_pie_chart docs request |})
      | None => None
      end
  | None => None
  end.

(** *** /api/initialize: the store as state *)

(** What the request to the external source comes to: [fetch] throws,
    or it resolves and [response.json()] throws or parses. *)
Inductive payload : Type :=
| Documents (data : list Transaction)
| Uncastable.

Inductive fetched : Type :=
| NetworkError
| Body (parsed : option payload).

(** What the promise of [deleteMany] comes to: the store carries the
    operation out, or the promise is rejected. *)
Inductive deletion : Type :=
| Resolves
| Rejects.

Inductive store_op : Type :=
| DeleteMany
| InsertMany.

(** The collection and the journal of the operations issued on it. *)
Record state := mkState { docs : Mongo.collection; journal : list store_op }.

(** An awaited step: the state after it and its value, [None] when it
    throws. *)
Definition action (A : Type) : Type := state -> state * option A.

#[export] Instance action_ret : MRet action :=
  fun A a st => (st, Some a).

#[export] Instance action_bind : MBind action :=
  fun A B f a st =>
    match a st with
    | (st', Some x) => f x st'
    | (st', None) => (st', None)
    end.

Definition try_catch {A : Type} (body : action A) (handler : action A)
  : action A :=
  fun st =>
    match body st with
    | (st', Some x) => (st', Some x)
    | (st', None) => handler st'
    end.

Definition fetch (w : fetched) : action (option payload) :=
  fun st =>
    match w with
    | NetworkError => (st, None)
    | Body parsed => (st, Some parsed)
    end.

Definition json (body : option payload) : action payload :=
  fun st => (st, body).

(** [await Transaction.deleteMany({})]: the operation is issued; when
    it is rejected the collection is as it was and the [await]
    throws. *)
Definition deleteMany (d : deletion) : action unit :=
  fun st =>
    match d with
    | Resolves => (mkState [] (journal st ++ [DeleteMany]), Some tt)
    | Rejects => (mkState (docs st) (journal st ++ [DeleteMany]), None)
    end.

(** [insertMany] validates every document before it writes any. *)
Definition insertMany (data : payload) : action unit :=
  fun st =>
    match data with
    | Documents l => (mkState (docs st ++ l) (journal st ++ [InsertMany]), Some tt)
    | Uncastable => (mkState (docs st) (journal st ++ [InsertMany]), None)
    end.

(** GET /api/initialize, [d] being what the [deleteMany] of the run
    comes to. *)
Definition api_initialize (d : deletion) (w : fetched)
  : action (response string) :=
  try_catch
    (body ← fetch w;
     data ← json body;
     _ ← deleteMany d;
     _ ← insertMany data;
     mret (Json "Database initialized successfully"%string))
    (mret (Status500 "Failed to initialize database")).

End App.


(** ** The views as the specification words them *)
Module Spec.

(** The records whose [dateOfSale] falls in calendar month [m], in
    storage order. *)
Definition month_records (m : Z) (docs : list Transaction) : list Transaction :=
  filter (fun t => monthOfYear (dateOfSale t) = m) docs.

(** How a [month] parameter denotes the month of a filter: absent, or a
    text that reads as the integer [m]. *)
Inductive month_param : option string -> option Z -> Prop :=
| month_absent : month_param None None
| month_given (s : string) (m : Z) :
    JS.parseInt s = Some m -> month_param (Some s) (Some m).

(** A capital letter as its small letter, any other character as it
    is. *)
Definition small (c : ascii) : ascii :=
  match index 0 (String c EmptyString) "ABCDEFGHIJKLMNOPQRSTUVWXYZ" with
  | Some i => default c (String.get i "abcdefghijklmnopqrstuvwxyz")
  | None => c
  end.

Fixpoint lowercase (s : string) : string :=
  match s with
  | String c s' => String (small c) (lowercase s')
  | EmptyString => EmptyString
  end.

Fixpoint starts_with (needle hay : string) : bool :=
  match needle, hay with
  | EmptyString, _ => true
  | String a n', String b h' => Ascii.eqb a b && starts_with n' h'
  | String _ _, EmptyString => false
  end.

Fixpoint occurs (needle hay : string) : bool :=
  starts_with needle hay
  || match hay with
     | String _ h' => occurs needle h'
     | EmptyString => false
     end.

(** [text] contains [s] as a substring, letter case apart. *)
Definition ci_contains (s text : string) : bool :=
  occurs (lowercase s) (lowercase text).

(** The numeric parse of the search text, zero when it is not a
    number. *)
Definition numeric_parse (s : string) : float :=
  let x := JS.parseFloat s in
  if is_nan x then 0%float else x.

(** The price equals the number [n]. *)
Definition price_equals (n : float) (t : Transaction) : bool :=
  (price t =? n)%float.

(** The filter predicate of the listing: the month, when there is one,
    and the search text, when there is one. *)
Definition satisfies (month : option Z) (search : option string)
    (t : Transaction) : bool :=
  match month with
  | Some m => monthOfYear (dateOfSale t) =? m
  | None => true
  end
  && match search with
     | Some s =>
         ci_contains s (title t) || ci_contains s (description t)
         || price_equals (numeric_parse s) t
     | None => true
     end.

(** A search text with no character that a regular expression reads
    as an operator. *)
Definition plain (s : string) : bool :=
  forallb (fun c => negb (Regex.is_meta c)) (list_ascii_of_string s).

Definition plain_search (search : option string) : Prop :=
  forall s, search = Some s -> plain s = true.

(** The sum of the prices of a list of records: the prices added one
    after the other, in the order of the list, as numbers are added. *)
Definition total_price (l : list Transaction) : float :=
  fold_left (fun acc t => (acc + price t)%float) l 0%float.

(** The price lies in the half-open range [lo, hi). *)
Definition price_in (lo hi : float) (t : Transaction) : bool :=
  (lo <=? price t)%float && negb (hi <=? price t)%float.

Definition price_from (lo : float) (t : Transaction) : bool :=
  (lo <=? price t)%float.

(** The count an entry of the histogram is to show, by its label. *)
Definition bucket_count (label : string) (l : list Transaction) : option nat :=
  let among p := length (filter (fun t => Is_true (p t)) l) in
  if String.eqb label "0 - 100" then Some (among (price_in 0 101))
  else if String.eqb label "101 - 200" then Some (among (price_in 101 201))
  else if String.eqb label "201 - 300" then Some (among (price_in 201 301))
  else if String.eqb label "301 - 400" then Some (among (price_in 301 401))
  else if String.eqb label "401 - 500" then Some (among (price_in 401 501))
  else if String.eqb label "501 - 600" then Some (among (price_in 501 601))
  else if String.eqb label "601 - 700" then Some (among (price_in 601 701))
  else if String.eqb label "701 - 800" then Some (among (price_in 701 801))
  else if String.eqb label "801 - 900" then Some (among (price_in 801 901))
  else if String.eqb label "901 - above" then Some (among (price_from 901))
  else None.

(** The number of records of a category. *)
Definition category_count (c : string) (l : list Transaction) : nat :=
  length (filter (fun t => category t = c) l).

End Spec.

(** ** Sample collections *)
Module Samples.

Definition record (i : Z) (name : string) (p : float) (cat : string)
    (s : bool) (m : Z) : Transaction :=
  mkTransaction i name p "" cat "" s (mkDate 2022 m 15).

(** The three records of the scenario: two of March, one of April. *)
Definition scenario : list Transaction :=
  [ record 1 "lamp" 50 "home" true 3;
    record 2 "desk" 150 "home" false 3;
    record 3 "phone" 950 "electronics" true 4 ].

(** One record of March, priced 150. *)
Definition single : list Transaction := [record 2 "desk" 150 "home" false 3].

(** Records of May with capitals, a description, a price that is not
    an integer, a price that is not a binary fraction (a tenth, as the
    nearest number) and the price 0. *)
Definition shelf : Transaction :=
  mkTransaction 4 "Oak Shelf" 12.5 "Solid WOOD, two boards" "home" "" true
    (mkDate 2022 5 2).

Definition pen : Transaction :=
  mkTransaction 5 "pen" 0 "blue" "office" "" false (mkDate 2022 5 9).

Definition ink : Transaction :=
  mkTransaction 6 "ink" 0x1.999999999999ap-4 "black" "office" "" true
    (mkDate 2022 5 9).

Definition nib : Transaction :=
  mkTransaction 7 "nib" 0x1.999999999999ap-3 "steel" "office" "" true
    (mkDate 2022 5 20).

Definition mixed : list Transaction := [shelf; pen; ink; nib].

(** [n] records of March, numbered from [i]. *)
Fixpoint march (n : nat) (i : Z) : list Transaction :=
  match n with
  | O => []
  | S n' => record i "item" 10 "misc" true 3 :: march n' (i + 1)
  end.

End Samples.


(** ** Notions the proofs use *)
(** What [forEach] with [assign_count] leaves in the entries from
    [index] on: counts taken item by item, labels kept. *)
Fixpoint overlay (items : list (Mongo.counted Mongo.bucket_id))
    (entries : list Bar.t) : list Bar.t :=
  match items, entries with
  | item :: items', b :: entries' =>
      Bar.mk (Bar.range b) (Mongo.count item) :: overlay items' entries'
  | _, _ => entries
  end.

Definition counts (l : list Bar.t) : nat := sum_list (Bar.count <$> l).

Definition tallies {K : Type} (l : list (Mongo.counted K)) : nat :=
  sum_list (Mongo.count <$> l).

(** The identifiers of the ten buckets, in the order of the output. *)
Definition bucket_ids : list (option float) :=
  map Some (Mongo.lowers App.boundaries) ++ [None].

Definition hit (b : option float) (t : Transaction) : nat :=
  if Mongo.in_bucket App.boundaries b t then 1%nat else 0%nat.

(** The items of a pattern that is its own text: every character a
    literal, once. *)
Fixpoint literal (s : string) : list Regex.piece :=
  match s with
  | String c s' => (Regex.Lit c, Regex.Once) :: literal s'
  | EmptyString => []
  end.

(** The query of the listing with no skip and no limit: every match. *)
Definition unpaginated (docs : list Transaction) (month search : option string)
  : Mongo.reply (list Transaction) :=
  Mongo.find (App.build_query month search) 0 0 docs.

(** The search text is absent or a pattern that the store accepts. *)
Definition accepted (search : option string) : Prop :=
  forall s, search = Some s -> exists ps, Regex.compile s = Regex.Pattern ps.

(** ** The dashboard (TransactionDashboard.js) *)
Module Dashboard.

Definition digit_char (d : Z) : ascii := ascii_of_N (Z.to_N (48 + d)).

(** The decimal digits of a non-negative integer before [acc], most
    significant first. *)
Fixpoint digits_of (fuel : nat) (n : Z) (acc : string) : string :=
  match fuel with
  | O => acc
  | S fuel' =>
      let acc' := String (digit_char (n mod 10)) acc in
      if n <? 10 then acc' else digits_of fuel' (n / 10) acc'
  end.

(** A number in a template literal, [`${n}`], for an integer from 0 to
    below 10^21, which is written with all its digits. *)
Definition template (n : Z) : string := digits_of 21 n "".

(** The state of [TransactionDashboard] that the listing and its
    pagination read and write.  [None] is [undefined]. *)
Record state := mkState {
  transactions : option (list Transaction);
  currentPage : Z;
  totalPages : option Z;
  searchQuery : string;
  selectedMonth : Z;
  statistics : response Statistics.t;
  barChartData : response (list Bar.t)
}.

(** The [useState] defaults. *)
Definition initial : state :=
  mkState (Some []) 1 (Some 1) "" 3
    (Json (Statistics.mk false 0 0 0)) (Json []).

(** Characters of a search text that reach [req.query] as they are when
    the text is written into the URL without encoding. *)
Definition query_safe_char (c : ascii) : bool :=
  App.url_plain_char c || existsb (Ascii.eqb c) (list_ascii_of_string "*?").

Definition query_safe (s : string) : bool :=
  forallb query_safe_char (list_ascii_of_string s).

(** The query of
    [/api/transactions?page=${page}&perPage=10&search=${searchQuery}&month=${selectedMonth}]. *)
Definition listing_request (st : state) (page : Z) : Req.query :=
  Req.mk (Some (template (selectedMonth st))) (Some (searchQuery st))
    (Some page) (Some 10).

(** [fetchTransactions(page)] against a server that holds [docs] and
    answers (the [catch], which only logs, is not taken): the body is
    parsed whatever its status and its [transactions] and [totalPages]
    are stored, [undefined] when the body is an error.  [None] when the
    search text does not survive the URL, or is a pattern outside the
    modelled fragment; with perPage=10 totalPages is never [null]. *)
Definition fetchTransactions (docs : list Transaction) (st : state) (page : Z)
  : option state :=
  if query_safe (searchQuery st) then
    match App.api_transactions docs (listing_request st page) with
    | Some (Json data) =>
        match Listing.totalPages data with
        | Some tp =>
            Some (mkState (Some (Listing.transactions data)) page (Some tp)
                    (searchQuery st) (selectedMonth st)
                    (statistics st) (barChartData st))
        | None => None
        end
    | Some (Status500 _) =>
        Some (mkState None page None (searchQuery st) (selectedMonth st)
                (statistics st) (barChartData st))
    | None => None
    end
  else None.

(** [fetchStatistics()] and [fetchBarChartData()]: the month alone. *)
Definition month_request (st : state) : Req.query :=
  Req.mk (Some (template (selectedMonth st))) None None None.

Definition fetchStatistics (docs : list Transaction) (st : state) : state :=
  mkState (transactions st) (currentPage st) (totalPages st) (searchQuery st)
    (selectedMonth st) (App.api_statistics docs (month_request st))
    (barChartData st).

Definition fetchBarChartData (docs : list Transaction) (st : state) : state :=
  mkState (transactions st) (currentPage st) (totalPages st) (searchQuery st)
    (selectedMonth st) (statistics st)
    (App.api_bar_chart docs (month_request st)).

(** [handlePageChange(newPage)]:
    [if (newPage >= 1 && newPage <= totalPages) setCurrentPage(newPage)];
    a comparison with [undefined] is false. *)
Definition handlePageChange (st : state) (newPage : Z) : state :=
  match totalPages st with
  | Some tp =>
      if (1 <=? newPage) && (newPage <=? tp)
      then mkState (transactions st) newPage (totalPages st) (searchQuery st)
             (selectedMonth st) (statistics st) (barChartData st)
      else st
  | None => st
  end.

(** The two buttons of [Pagination]: [disabled] and [onClick]. *)
Definition previous_disabled (st : state) : bool := currentPage st =? 1.

Definition next_disabled (st : state) : bool :=
  match totalPages st with
  | Some tp => currentPage st =? tp
  | None => false
  end.

Definition click_previous (st : state) : state :=
  if previous_disabled st then st
  else handlePageChange st (currentPage st - 1).

Definition click_next (st : state) : state :=
  if next_disabled st then st
  else handlePageChange st (currentPage st + 1).

(** The effect that follows a change of [currentPage]: the listing is
    fetched for the page the state now holds, and the statistics and
    the histogram are fetched again; the three write different parts of
    the state. *)
Definition page_effect (docs : list Transaction) (st : state) : option state :=
  match fetchTransactions docs st (currentPage st) with
  | Some st' => Some (fetchBarChartData docs (fetchStatistics docs st'))
  | None => None
  end.

(** [chartData] of [BarChart]: the labels and the data of the one data
    set. *)
Record chartData := mkChart { labels : list string; data : list nat }.

Definition barChart (entries : list Bar.t) : chartData :=
  mkChart (map Bar.range entries) (map Bar.count entries).

End Dashboard.

(** The transactions of one page of the listing, none when the listing
    is not returned. *)
Definition page_slice (docs : list Transaction) (month search : option string)
    (perPage page : Z) : list Transaction :=
  match App.api_transactions docs (Req.mk month search (Some page) (Some perPage)) with
  | Some (Json r) => Listing.transactions r
  | _ => []
  end.

(** The number of pages the listing reports. *)
Definition page_count (docs : list Transaction) (month search : option string)
    (perPage : Z) : nat :=
  match App.api_transactions docs (Req.mk month search (Some 1) (Some perPage)) with
  | Some (Json r) => Z.to_nat (default 0 (Listing.totalPages r))
  | _ => O
  end.

(** The nine ranged buckets: label and bounds. *)
Definition ranged : list (string * float * float) :=
  [ ("0 - 100", 0, 101); ("101 - 200", 101, 201); ("201 - 300", 201, 301);
    ("301 - 400", 301, 401); ("401 - 500", 401, 501); ("501 - 600", 501, 601);
    ("601 - 700", 601, 701); ("701 - 800", 701, 801);
    ("801 - 900", 801, 901) ]%float.

(** The number of records in each of the ten ranges of the histogram,
    in the order of the entries: the nine ranges [lo, hi), then the
    prices outside [0, 901), which are from 901 on, below 0 or not a
    number. *)
Definition range_counts (l : list Transaction) : list nat :=
  map (fun r : string * float * float =>
         length (filter (fun t => Spec.price_in r.1.2 r.2 t) l)) ranged
  ++ [length (filter (fun t => negb (Spec.price_in 0 901 t)) l)].

(** The counts that are not 0, in order. *)
Definition positive_counts (cs : list nat) : list nat :=
  List.filter (fun n => negb (Nat.eqb n 0)) cs.

(** The ten labels of the histogram, in order. *)
Definition range_labels : list string := Bar.range <$> App.result_template.

(** The documents of the ten buckets before the empty ones are left
    out. *)
Definition all_buckets (docs : list Transaction)
  : list (Mongo.counted Mongo.bucket_id) :=
  map (fun lo =>
         Mongo.mkCounted (Mongo.Lower lo)
           (length (filter (fun t => Mongo.in_bucket App.boundaries (Some lo) t)
                      docs)))
    (Mongo.lowers App.boundaries)
  ++ [Mongo.mkCounted (Mongo.Default "901-above")
        (length (filter (fun t => Mongo.in_bucket App.boundaries None t) docs))].

(** A decimal digit. *)
Definition is_decimal (c : ascii) : bool :=
  (48 <=? JS.code c) && (JS.code c <=? 57).

Definition all_decimal (s : string) : bool :=
  forallb is_decimal (list_ascii_of_string s).

(** * Properties *)

(** Membership in a list that is written out. *)
Ltac in_list := apply list_elem_of_In; simpl; tauto.

(** ** The platform on examples *)

Example parseInt_examples :
  JS.parseInt "3" = Some 3
  /\ JS.parseInt "  12px" = Some 12
  /\ JS.parseInt "-7" = Some (-7)
  /\ JS.parseInt "0x1f" = Some 31
  /\ JS.parseInt "march" = None
  /\ JS.parseInt "" = None
  /\ JS.parseInt_param None = None.
Proof. repeat split; reflexivity. Qed.

Example parseFloat_examples :
  JS.parseFloat "150" = 150%float
  /\ JS.parseFloat "1.5e2 units" = 150%float
  /\ JS.parseFloat "12.50" = 12.5%float
  /\ JS.parseFloat ".5" = 0.5%float
  /\ JS.parseFloat "-Infinity" = neg_infinity
  /\ JS.parseFloat "lamp" = nan
  /\ JS.parseFloat "." = nan
  /\ JS.or_zero (JS.parseFloat "lamp") = 0%float
  /\ JS.or_zero (JS.parseFloat "-0") = 0%float.
Proof. repeat split; vm_compute; reflexivity. Qed.

(** The literal is rounded to the nearest number: a tenth is not a
    binary fraction, an integer beyond 2^53 loses its last bit, and a
    literal beyond the range of the numbers is 0 or [Infinity]. *)
Example parseFloat_rounds :
  JS.parseFloat "0.1" = 0x1.999999999999ap-4%float
  /\ JS.parseFloat "9007199254740993" = 9007199254740992%float
  /\ JS.parseFloat "1e-400" = 0%float
  /\ JS.parseFloat "1e999" = infinity
  /\ JS.parseFloat "1.7976931348623159e308" = infinity
  /\ JS.parseFloat "5e-324" = 0x1p-1074%float
  /\ JS.parseFloat "2e-324" = 0%float
  /\ JS.parseFloat "1e99999999999999999999" = infinity
  /\ JS.parseFloat "-1e-99999999999999999999" = (-0)%float
  /\ JS.parseFloat "0e99999999999999999999" = 0%float.
Proof. repeat split; vm_compute; reflexivity. Qed.

Example compile_examples :
  Regex.compile "ab"
  = Regex.Pattern [(Regex.Lit "a", Regex.Once); (Regex.Lit "b", Regex.Once)]
  /\ Regex.compile "a.b*"
     = Regex.Pattern [(Regex.Lit "a", Regex.Once); (Regex.AnyChar, Regex.Once);
                      (Regex.Lit "b", Regex.ZeroOrMore)]
  /\ Regex.compile "3\.5"
     = Regex.Pattern [(Regex.Lit "3", Regex.Once); (Regex.Lit ".", Regex.Once);
                      (Regex.Lit "5", Regex.Once)]
  /\ Regex.compile "*a" = Regex.Malformed
  /\ Regex.compile "a\" = Regex.Malformed
  /\ Regex.compile "(a|b)" = Regex.Unmodelled
  /\ Regex.compile "\d+" = Regex.Unmodelled.
Proof. repeat split; reflexivity. Qed.

Example search_examples :
  Regex.search [(Regex.Lit "a", Regex.Once); (Regex.Lit "b", Regex.OneOrMore)]
    "xxABBxx" = true
  /\ Regex.search [(Regex.Lit "a", Regex.Once); (Regex.Lit "b", Regex.OneOrMore)]
       "xxAxx" = false
  /\ Regex.search [(Regex.AnyChar, Regex.Once)] "" = false
  /\ Regex.search [(Regex.AnyChar, Regex.ZeroOrMore)] "" = true.
Proof. repeat split; reflexivity. Qed.

(** ** Binary64 numbers

    What the proofs need of the arithmetic of [float], from the
    specification of the operations on [spec_float]: a sum is the
    negative zero only when both terms are, so that adding 0 to a sum
    that started from 0 changes nothing; the order is transitive; and
    the two zeros are equal to the same numbers. *)

(** A mantissa has as many bits as [digits2_pos] says. *)
Lemma digits2_bounds (m : positive) :
  2 ^ (Zpos (digits2_pos m) - 1) <= Zpos m < 2 ^ Zpos (digits2_pos m).
Proof.
  induction m as [m IH|m IH|]; cbn [digits2_pos].
  - rewrite Pos2Z.inj_succ, Z.pow_succ_r by lia.
    replace (Z.succ (Zpos (digits2_pos m)) - 1) with (Z.succ (Zpos (digits2_pos m) - 1)) by lia.
    rewrite Z.pow_succ_r by lia. lia.
  - rewrite Pos2Z.inj_succ, Z.pow_succ_r by lia.
    replace (Z.succ (Zpos (digits2_pos m)) - 1) with (Z.succ (Zpos (digits2_pos m) - 1)) by lia.
    rewrite Z.pow_succ_r by lia. lia.
  - simpl. lia.
Qed.

(** A shift to the right halves the mantissa. *)
Lemma shr_1_m (r : shr_record) :
  0 <= shr_m r -> shr_m (shr_1 r) = shr_m r / 2.
Proof.
  destruct r as [[|[p|p|]|p] b s]; cbn [shr_m shr_1]; intros H; try lia.
  - reflexivity.
  - rewrite Pos2Z.inj_xI. apply Z.div_unique with 1; lia.
  - rewrite Pos2Z.inj_xO. apply Z.div_unique with 0; lia.
  - reflexivity.
Qed.

Lemma iter_shr_1_m (p : positive) (r : shr_record) :
  0 <= shr_m r -> shr_m (SpecFloat.iter_pos shr_1 p r) = shr_m r / 2 ^ Zpos p.
Proof.
  revert r. induction p as [p IH|p IH|]; intros r H; cbn [SpecFloat.iter_pos].
  - assert (H1 : 0 <= shr_m (shr_1 r)) by (rewrite shr_1_m by done; apply Z.div_pos; lia).
    assert (H2 : 0 <= shr_m (SpecFloat.iter_pos shr_1 p (shr_1 r)))
      by (rewrite IH by done; apply Z.div_pos; lia).
    rewrite IH, IH, shr_1_m by done.
    rewrite !Z.div_div by lia. f_equal.
    replace (Zpos p~1) with (1 + Zpos p + Zpos p) by lia.
    rewrite !Z.pow_add_r by lia. lia.
  - assert (H2 : 0 <= shr_m (SpecFloat.iter_pos shr_1 p r))
      by (rewrite IH by done; apply Z.div_pos; lia).
    rewrite IH, IH by done.
    rewrite !Z.div_div by lia. f_equal.
    replace (Zpos p~0) with (Zpos p + Zpos p) by lia.
    rewrite !Z.pow_add_r by lia. lia.
  - by apply shr_1_m.
Qed.

(** Rounding a positive mantissa whose exponent is not below the least
    one never gives zero. *)
Lemma shr_fexp_pos (m : positive) (e : Z) (l : location) :
  emin <= e ->
  0 < shr_m (shr_fexp prec emax (Zpos m) e l).1
  /\ emin <= (shr_fexp prec emax (Zpos m) e l).2.
Proof.
  intros He. unfold shr_fexp, shr. cbn [Zdigits2].
  assert (Hm : shr_m (shr_record_of_loc (Z.pos m) l) = Zpos m)
    by (by destruct l as [|[]]).
  destruct (SpecFloat.fexp prec emax (Z.pos (digits2_pos m) + e) - e) as [|p|p] eqn:E;
    cbn [fst snd]; [rewrite Hm; lia| |rewrite Hm; lia].
  rewrite iter_shr_1_m by (rewrite Hm; lia). rewrite Hm.
  unfold SpecFloat.fexp in E. change prec with 53 in *.
  pose proof (digits2_bounds m) as [Hlo _].
  assert (Hp : Zpos p <= Zpos (digits2_pos m) - 1) by lia.
  split; [|lia].
  apply Z.div_str_pos. split; [lia|].
  eapply Z.le_trans; [|exact Hlo]. apply Z.pow_le_mono_r; lia.
Qed.

(** Rounding does not lower a mantissa. *)
Lemma round_nearest_even_pos (m : Z) (l : location) :
  0 < m -> 0 < round_nearest_even m l.
Proof.
  intros H. destruct l as [|[]]; simpl; try lia. destruct (Z.even m); lia.
Qed.

Lemma binary_round_aux_not_zero (s : bool) (m : positive) (e : Z)
    (l : location) (s' : bool) :
  emin <= e -> binary_round_aux prec emax s (Zpos m) e l <> S754_zero s'.
Proof.
  intros He. unfold binary_round_aux.
  pose proof (shr_fexp_pos m e l He) as [H1 H2].
  destruct (shr_fexp prec emax (Z.pos m) e l) as [mrs' e'].
  cbn [fst snd] in H1, H2.
  pose proof (round_nearest_even_pos (shr_m mrs') (loc_of_shr_record mrs') H1) as H3.
  destruct (round_nearest_even (shr_m mrs') (loc_of_shr_record mrs')) as [|m2|m2];
    try lia.
  pose proof (shr_fexp_pos m2 e' loc_Exact H2) as [H4 _].
  destruct (shr_fexp prec emax (Z.pos m2) e' loc_Exact) as [mrs'' e''].
  cbn [fst] in H4. destruct (shr_m mrs'') as [|m3|m3]; try lia.
  by destruct (e'' <=? emax - prec).
Qed.

(** The exponent of a number is not below the least one. *)
Lemma valid_exponent (s : bool) (m : positive) (e : Z) :
  valid_binary (S754_finite s m e) = true -> emin <= e.
Proof.
  cbn [SpecFloat.valid_binary]. unfold bounded, canonical_mantissa.
  intros [H _]%andb_prop. apply Z.eqb_eq in H. unfold SpecFloat.fexp in H.
  change (SpecFloat.emin prec emax) with emin in H. lia.
Qed.

Lemma binary_round_not_zero (s : bool) (m : positive) (e : Z) (s' : bool) :
  emin <= e -> binary_round prec emax s m e <> S754_zero s'.
Proof.
  intros He. unfold binary_round, shl_align.
  destruct (SpecFloat.fexp prec emax (Z.pos (digits2_pos m) + e) - e) eqn:E;
    try by apply binary_round_aux_not_zero.
  apply binary_round_aux_not_zero. unfold SpecFloat.fexp.
  change (SpecFloat.emin prec emax) with emin. lia.
Qed.

(** A sum is the negative zero only when both terms are. *)
Lemma SFadd_neg_zero (x y : spec_float) :
  valid_binary x = true -> valid_binary y = true ->
  SF64add x y = S754_zero true -> x = S754_zero true /\ y = S754_zero true.
Proof.
  intros Hx Hy. unfold SF64add, SFadd.
  destruct x as [[]|[]| |sx mx ex], y as [[]|[]| |sy my ey]; try done.
  apply valid_exponent in Hx, Hy. unfold binary_normalize.
  match goal with
  | |- context [match ?z with Z0 => _ | Zpos _ => _ | Zneg _ => _ end] =>
      destruct z
  end; [done| |]; intros H; exfalso; revert H;
    apply binary_round_not_zero; lia.
Qed.

Lemma Prim2SF_neg_zero (x : float) :
  Prim2SF x = S754_zero true -> x = (-0)%float.
Proof.
  intros H. rewrite <- (SF2Prim_Prim2SF x), H. reflexivity.
Qed.

Lemma add_neg_zero (x y : float) :
  (x + y)%float = (-0)%float -> x = (-0)%float /\ y = (-0)%float.
Proof.
  intros H. apply (f_equal Prim2SF) in H. rewrite FloatAxioms.add_spec in H.
  change (Prim2SF (-0)) with (S754_zero true) in H.
  apply SFadd_neg_zero in H as [H1 H2]; try apply Prim2SF_valid.
  split; by apply Prim2SF_neg_zero.
Qed.

(** Adding 0 changes the negative zero only. *)
Lemma add_zero_r (x : float) :
  x <> (-0)%float -> (x + 0)%float = x.
Proof.
  intros H. apply Prim2SF_inj. rewrite FloatAxioms.add_spec.
  change (Prim2SF 0) with (S754_zero false).
  destruct (Prim2SF x) as [[]|[]| |s m e] eqn:E; try reflexivity.
  exfalso. by apply H, Prim2SF_neg_zero.
Qed.

(** The order of the numbers is transitive. *)
Lemma SFleb_trans (x y z : spec_float) :
  SFleb x y = true -> SFleb y z = true -> SFleb x z = true.
Proof.
  unfold SFleb, SFcompare.
  destruct x as [[]|[]| |[] mx ex], y as [[]|[]| |[] my ey],
    z as [[]|[]| |[] mz ez]; try done;
  change (Pos.compare_cont Eq) with Pos.compare;
  destruct (Z.compare_spec ex ey), (Z.compare_spec ey ez), (Z.compare_spec ex ez);
    try done; try lia; subst;
  destruct (Pos.compare_spec mx my), (Pos.compare_spec my mz),
    (Pos.compare_spec mx mz); simpl; try done; try lia.
Qed.

Lemma leb_trans (x y z : float) :
  (x <=? y)%float = true -> (y <=? z)%float = true -> (x <=? z)%float = true.
Proof.
  intros H1 H2. rewrite FloatAxioms.leb_spec in *.
  by apply SFleb_trans with (Prim2SF y).
Qed.

(** The two zeros equal the same numbers. *)
Lemma eqb_neg_zero (x : float) : (x =? -0)%float = (x =? 0)%float.
Proof.
  rewrite !FloatAxioms.eqb_spec. change (Prim2SF (-0)) with (S754_zero true).
  change (Prim2SF 0) with (S754_zero false).
  by destruct (Prim2SF x) as [[]|[]| |[] m e].
Qed.

(** ** The month filter *)

Lemma match_month_records (m : Z) (docs : list Transaction) :
  Mongo.match_month (Some m) docs = Spec.month_records m docs.
Proof.
  unfold Mongo.match_month, Spec.month_records.
  apply list_filter_iff. intros t. unfold Mongo.expr_month_eq, Mongo.month_op.
  rewrite Is_true_true. apply Z.eqb_eq.
Qed.

Lemma match_month_NaN (docs : list Transaction) :
  Mongo.match_month None docs = [].
Proof.
  unfold Mongo.match_month. induction docs as [|t docs IH]; [done|].
  rewrite filter_cons, decide_False; [exact IH | simpl; tauto].
Qed.

(** ** Statistics *)

(** A month that does not read as a number selects nothing. *)
Lemma statistics_no_month (docs : list Transaction) (q : Req.query) :
  JS.parseInt_param (Req.month q) = None ->
  App.api_statistics docs q = Json (Statistics.mk false 0 0 0).
Proof.
  intros H. unfold App.api_statistics. cbn zeta.
  by rewrite H, match_month_NaN.
Qed.

Section Accumulators.

Local Open Scope nat_scope.

Lemma fold_accumulate_sold (l : list Transaction) (acc : Mongo.totals) :
  Mongo.totalSoldItems (fold_left Mongo.accumulate l acc)
  = Mongo.totalSoldItems acc + length (filter (fun t => sold t = true) l).
Proof.
  revert acc. induction l as [|t l IH]; intros acc; simpl.
  - lia.
  - rewrite IH, filter_cons. simpl. destruct (sold t); simpl; lia.
Qed.

Lemma fold_accumulate_not_sold (l : list Transaction) (acc : Mongo.totals) :
  Mongo.totalNotSoldItems (fold_left Mongo.accumulate l acc)
  = Mongo.totalNotSoldItems acc + length (filter (fun t => sold t = false) l).
Proof.
  revert acc. induction l as [|t l IH]; intros acc; simpl.
  - lia.
  - rewrite IH, filter_cons. simpl. destruct (sold t); simpl; lia.
Qed.

(** The operand 0 of a record that is not sold leaves the sum as it
    is: a sum that starts from 0 is never the negative zero. *)
Lemma fold_accumulate_amount (l : list Transaction) (acc : Mongo.totals) :
  Mongo.totalSaleAmount acc <> (-0)%float ->
  Mongo.totalSaleAmount (fold_left Mongo.accumulate l acc)
  = fold_left (fun a t => (a + price t)%float)
      (filter (fun t => sold t = true) l) (Mongo.totalSaleAmount acc).
Proof.
  revert acc. induction l as [|t l IH]; intros acc Hacc; [done|].
  cbn [fold_left]. rewrite IH.
  - rewrite filter_cons. cbn [Mongo.accumulate Mongo.totalSaleAmount].
    destruct (sold t); simpl; [done|]. by rewrite add_zero_r.
  - cbn [Mongo.accumulate Mongo.totalSaleAmount]. intros H.
    by apply add_neg_zero in H as [H _].
Qed.

(** Sold or not: the two counts share out the records. *)
Lemma sold_or_not (l : list Transaction) :
  length (filter (fun t => sold t = true) l)
  + length (filter (fun t => sold t = false) l) = length l.
Proof.
  induction l as [|t l IH]; [done|].
  rewrite !filter_cons. destruct (sold t); simpl; lia.
Qed.

End Accumulators.

(** The body of /api/statistics, field by field. *)
Lemma statistics_body (docs : list Transaction) (q : Req.query) :
  exists s,
    App.api_statistics docs q = Json s
    /\ let l := Mongo.match_month (JS.parseInt_param (Req.month q)) docs in
       Statistics.totalSaleAmount s
       = Spec.total_price (filter (fun t => sold t = true) l)
       /\ Statistics.totalSoldItems s
          = length (filter (fun t => sold t = true) l)
       /\ Statistics.totalNotSoldItems s
          = length (filter (fun t => sold t = false) l)
       /\ (l = [] -> s = Statistics.mk false 0 0 0).
Proof.
  unfold App.api_statistics. cbn zeta.
  set (l := Mongo.match_month (JS.parseInt_param (Req.month q)) docs).
  eexists. split; [reflexivity|]. simpl.
  destruct l as [|t l'] eqn:El.
  - simpl. repeat split; reflexivity.
  - unfold Mongo.group_null. cbn [lookup list_lookup]. cbn beta iota.
    cbn [Statistics.totalSaleAmount Statistics.totalSoldItems
         Statistics.totalNotSoldItems].
    rewrite fold_accumulate_sold, fold_accumulate_not_sold.
    split; [|by repeat split].
    rewrite fold_accumulate_amount; [reflexivity|].
    intros H. apply (f_equal Prim2SF) in H. discriminate H.
Qed.



(** The amount is rounded as the additions are: a tenth and two tenths
    make 0.30000000000000004, the number after the one nearest to three
    tenths. *)
Example statistics_rounds :
  App.api_statistics [Samples.ink; Samples.nib]
    (Req.mk (Some "5"%string) None None None)
  = Json (Statistics.mk true 0x1.3333333333334p-2 2 0)
  /\ JS.parseFloat "0.3" = 0x1.3333333333333p-2%float
  /\ JS.parseFloat "0.30000000000000004" = 0x1.3333333333334p-2%float.
Proof. repeat split; vm_compute; reflexivity. Qed.

(** C6: for every month m, totalSoldItems + totalNotSoldItems of
    /api/statistics is the number of records whose dateOfSale is of
    calendar month m. *)
Theorem statistics_counts_add_up (docs : list Transaction) (q : Req.query)
    (m : Z) :
  JS.parseInt_param (Req.month q) = Some m ->
  exists s,
    App.api_statistics docs q = Json s
    /\ (Statistics.totalSoldItems s + Statistics.totalNotSoldItems s
        = length (Spec.month_records m docs))%nat.
Proof.
  intros Hm. destruct (statistics_body docs q) as (s & Hs & _ & Hsold & Hnot & _).
  rewrite Hm, match_month_records in Hsold, Hnot.
  exists s. split; [exact Hs|]. rewrite Hsold, Hnot. apply sold_or_not.
Qed.

Lemma statistics_counts_add_up_witness :
  exists s,
    App.api_statistics Samples.scenario
      (Req.mk (Some "3"%string) (Some "lamp"%string) None None) = Json s
    /\ (Statistics.totalSoldItems s + Statistics.totalNotSoldItems s = 2)%nat.
Proof.
  destruct (statistics_counts_add_up Samples.scenario
              (Req.mk (Some "3"%string) (Some "lamp"%string) None None) 3
              ltac:(reflexivity)) as (s & Hs & Hsum).
  exists s. split; [exact Hs | rewrite Hsum; reflexivity].
Defined.

(** ** The histogram *)

Lemma forEach_beyond (items : list (Mongo.counted Mongo.bucket_id))
    (index : nat) (result : list Bar.t) :
  (length result <= index)%nat ->
  App.forEach App.assign_count items index result = result.
Proof.
  revert index. induction items as [|item items IH]; intros index Hle; [done|].
  cbn [App.forEach]. unfold App.assign_count at 2.
  rewrite (proj2 (Nat.ltb_ge _ _)) by lia. apply IH. lia.
Qed.

Lemma forEach_assign_count (items : list (Mongo.counted Mongo.bucket_id))
    (pre rest : list Bar.t) :
  App.forEach App.assign_count items (length pre) (pre ++ rest)
  = pre ++ overlay items rest.
Proof.
  revert pre rest. induction items as [|item items IH]; intros pre rest.
  - by destruct rest.
  - cbn [App.forEach]. destruct rest as [|b rest].
    + cbn [overlay]. rewrite !app_nil_r. unfold App.assign_count at 2.
      rewrite (proj2 (Nat.ltb_ge _ _)) by lia.
      apply forEach_beyond. lia.
    + unfold App.assign_count at 2.
      rewrite (proj2 (Nat.ltb_lt _ _)) by (rewrite length_app; simpl; lia).
      rewrite alter_app_r_alt by lia. rewrite Nat.sub_diag. cbn [alter list_alter].
      specialize (IH (pre ++ [Bar.mk (Bar.range b) (Mongo.count item)]) rest).
      rewrite length_app in IH. simpl in IH. rewrite Nat.add_1_r in IH.
      rewrite <- !app_assoc in IH. simpl in IH. exact IH.
Qed.

Lemma counts_overlay (items : list (Mongo.counted Mongo.bucket_id))
    (entries : list Bar.t) :
  (length items <= length entries)%nat ->
  Forall (fun b => Bar.count b = O) entries ->
  counts (overlay items entries) = tallies items.
Proof.
  revert entries. induction items as [|item items IH]; intros entries Hlen Hz.
  - replace (overlay [] entries) with entries by (by destruct entries).
    unfold counts, tallies. simpl. clear Hlen.
    induction Hz as [|b l Hb _ IHz]; [done|]. simpl. rewrite Hb. exact IHz.
  - destruct entries as [|b entries]; [simpl in Hlen; lia|].
    inversion Hz; subst. simpl in Hlen. unfold counts, tallies in *. simpl.
    f_equal. apply IH; [lia | done].
Qed.

Lemma tallies_nonempty {K : Type} (l : list (Mongo.counted K)) :
  tallies (List.filter Mongo.nonempty l) = tallies l.
Proof.
  unfold tallies. induction l as [|c l IH]; [done|]. simpl.
  unfold Mongo.nonempty at 1. destruct (Nat.eqb_spec (Mongo.count c) 0); simpl.
  - rewrite IH, e. reflexivity.
  - f_equal. exact IH.
Qed.

Lemma length_filter_nonempty {K : Type} (l : list (Mongo.counted K)) :
  (length (List.filter Mongo.nonempty l) <= length l)%nat.
Proof.
  induction l as [|c l IH]; [done|]. simpl.
  destruct (Mongo.nonempty c); simpl; lia.
Qed.

(** A price is in one bucket: below the first boundary or from the last
    one on it is in the default bucket, otherwise in the bucket of the
    boundary just below it. *)
Lemma bucket_of_boundaries (x : float) :
  In (Mongo.bucket_of App.boundaries x)
     (None :: map Some (Mongo.lowers App.boundaries)).
Proof.
  unfold App.boundaries. cbn [Mongo.bucket_of Mongo.lowers map].
  repeat match goal with
         | |- context [if ?c then _ else _] =>
             destruct c; [cbn [In]; tauto|]
         end.
  cbn [In]. tauto.
Qed.
(** Every record is in exactly one of the ten buckets. *)
Lemma hit_once (t : Transaction) :
  sum_list (map (fun b => hit b t) bucket_ids) = 1%nat.
Proof.
  unfold hit, Mongo.in_bucket.
  pose proof (bucket_of_boundaries (price t)) as H. cbn [In map Mongo.lowers App.boundaries] in H.
  repeat (destruct H as [H|H]; [rewrite <- H; reflexivity|]).
  contradiction.
Qed.

Lemma sum_list_pointwise {A : Type} (f g : A -> nat) (l : list A) :
  sum_list (map (fun a => (f a + g a)%nat) l)
  = (sum_list (map f l) + sum_list (map g l))%nat.
Proof. induction l as [|a l IH]; simpl; lia. Qed.

Lemma tally_all_buckets (docs : list Transaction) :
  sum_list (map (fun b =>
              length (filter (fun t => Mongo.in_bucket App.boundaries b t) docs))
            bucket_ids)
  = length docs.
Proof.
  induction docs as [|t docs IH].
  - unfold bucket_ids. simpl. reflexivity.
  - transitivity
      (sum_list (map (fun b =>
         (hit b t
          + length (filter (fun t => Mongo.in_bucket App.boundaries b t) docs))%nat)
         bucket_ids)).
    + f_equal. apply map_ext. intros b. rewrite filter_cons. unfold hit.
      destruct (Mongo.in_bucket App.boundaries b t); reflexivity.
    + rewrite sum_list_pointwise, hit_once, IH. reflexivity.
Qed.

(** The output of the [$bucket] stage counts every input document. *)
Lemma bucket_tallies (docs : list Transaction) :
  tallies (Mongo.bucket App.boundaries "901-above" docs) = length docs.
Proof.
  unfold Mongo.bucket. rewrite tallies_nonempty.
  rewrite <- (tally_all_buckets docs). reflexivity.
Qed.

Lemma bucket_length (docs : list Transaction) :
  (length (Mongo.bucket App.boundaries "901-above" docs) <= 10)%nat.
Proof.
  unfold Mongo.bucket.
  etransitivity; [apply length_filter_nonempty|]. reflexivity.
Qed.

(** The body of /api/bar-chart is the template with the counts of the
    stage laid over it from the first entry. *)
Lemma bar_chart_overlay (docs : list Transaction) (q : Req.query) :
  App.api_bar_chart docs q
  = Json (overlay
            (Mongo.bucket App.boundaries "901-above"
               (Mongo.match_month (JS.parseInt_param (Req.month q)) docs))
            App.result_template).
Proof.
  unfold App.api_bar_chart. f_equal.
  apply (forEach_assign_count _ [] App.result_template).
Qed.

Lemma overlay_length (items : list (Mongo.counted Mongo.bucket_id))
    (entries : list Bar.t) :
  length (overlay items entries) = length entries.
Proof.
  revert entries. induction items as [|i items IH]; intros [|b entries];
    simpl; auto.
Qed.

Lemma overlay_ranges (items : list (Mongo.counted Mongo.bucket_id))
    (entries : list Bar.t) :
  Bar.range <$> overlay items entries = Bar.range <$> entries.
Proof.
  revert entries. induction items as [|i items IH]; intros [|b entries];
    simpl; [done..|]. f_equal. apply IH.
Qed.

(** C4: for every month m, the ten counts of /api/bar-chart add up to
    the number of records whose dateOfSale is of calendar month m; every
    record is in exactly one of the ten buckets, the catch-all
    included. *)
Theorem bar_chart_counts_total (docs : list Transaction) (q : Req.query)
    (m : Z) :
  JS.parseInt_param (Req.month q) = Some m ->
  exists result,
    App.api_bar_chart docs q = Json result
    /\ length result = 10%nat
    /\ sum_list (Bar.count <$> result) = length (Spec.month_records m docs)
    /\ forall t, sum_list (map (fun b => hit b t) bucket_ids) = 1%nat.
Proof.
  intros Hm. rewrite bar_chart_overlay, Hm, match_month_records.
  eexists. split; [reflexivity|]. split; [|split].
  - by rewrite overlay_length.
  - change (counts (overlay (Mongo.bucket App.boundaries "901-above"
                              (Spec.month_records m docs))
                      App.result_template)
            = length (Spec.month_records m docs)).
    rewrite counts_overlay.
    + apply bucket_tallies.
    + apply bucket_length.
    + unfold App.result_template. repeat constructor.
  - apply hit_once.
Qed.

Lemma bar_chart_counts_total_witness :
  exists result,
    App.api_bar_chart Samples.scenario (Req.mk (Some "3"%string) None None None) = Json result
    /\ sum_list (Bar.count <$> result) = 2%nat.
Proof.
  destruct (bar_chart_counts_total Samples.scenario
              (Req.mk (Some "3"%string) None None None) 3
              ltac:(reflexivity)) as (result & Hr & _ & Hsum & _).
  exists result. split; [exact Hr | rewrite Hsum; reflexivity].
Defined.

(** C1 at one record of March priced 150: the aggregation returns the
    single bucket [101, 201), the handler writes its count into the first
    entry, and the body shows 1 under '0 - 100' and 0 under '101 - 200',
    where the ranges hold 0 and 1 records. *)
Theorem bar_chart_single_record :
  App.api_bar_chart Samples.single (Req.mk (Some "3"%string) None None None)
  = Json [ Bar.mk "0 - 100" 1; Bar.mk "101 - 200" 0; Bar.mk "201 - 300" 0;
           Bar.mk "301 - 400" 0; Bar.mk "401 - 500" 0; Bar.mk "501 - 600" 0;
           Bar.mk "601 - 700" 0; Bar.mk "701 - 800" 0; Bar.mk "801 - 900" 0;
           Bar.mk "901 - above" 0 ]
  /\ Mongo.bucket App.boundaries "901-above" (Spec.month_records 3 Samples.single)
     = [Mongo.mkCounted (Mongo.Lower 101) 1]
  /\ Spec.bucket_count "0 - 100" (Spec.month_records 3 Samples.single) = Some 0%nat
  /\ Spec.bucket_count "101 - 200" (Spec.month_records 3 Samples.single) = Some 1%nat.
Proof. repeat split; vm_compute; reflexivity. Qed.

(** The scenario of March: one record in each of the first two
    buckets. *)
Example bar_chart_scenario :
  App.api_bar_chart Samples.scenario (Req.mk (Some "3"%string) None None None)
  = Json [ Bar.mk "0 - 100" 1; Bar.mk "101 - 200" 1; Bar.mk "201 - 300" 0;
           Bar.mk "301 - 400" 0; Bar.mk "401 - 500" 0; Bar.mk "501 - 600" 0;
           Bar.mk "601 - 700" 0; Bar.mk "701 - 800" 0; Bar.mk "801 - 900" 0;
           Bar.mk "901 - above" 0 ].
Proof. vm_compute. reflexivity. Qed.

(** ** The category breakdown *)

Lemma group_category_lookup (docs : list Transaction) (c : string) :
  Mongo.group_category docs !! c
  = if Nat.eqb (Spec.category_count c docs) 0 then None
    else Some (Spec.category_count c docs).
Proof.
  unfold Spec.category_count. induction docs as [|t docs IH]; [done|].
  cbn [Mongo.group_category foldr]. fold (Mongo.group_category docs).
  rewrite filter_cons. destruct (decide (category t = c)) as [->|Hne].
  - rewrite lookup_insert_eq, IH.
    destruct (Nat.eqb_spec (length (filter (fun t => category t = c) docs)) 0)
      as [E|E]; simpl.
    + by rewrite E.
    + done.
  - rewrite lookup_insert_ne by done. exact IH.
Qed.

Lemma group_docs_elem (g : gmap string nat) (c : string) (n : nat) :
  Mongo.mkCounted c n ∈ Mongo.group_docs g <-> g !! c = Some n.
Proof.
  unfold Mongo.group_docs. rewrite list_elem_of_fmap. split.
  - intros ([k v] & Heq & Hin). simpl in Heq. injection Heq as -> ->.
    by apply elem_of_map_to_list.
  - intros H. exists (c, n). split; [done|]. by apply elem_of_map_to_list.
Qed.

Lemma group_docs_ids (g : gmap string nat) :
  NoDup (Mongo._id <$> Mongo.group_docs g).
Proof.
  unfold Mongo.group_docs. rewrite <- list_fmap_compose.
  apply (NoDup_fst_map_to_list g).
Qed.

(** C9: for every month m, /api/pie-chart returns exactly one pair
    {_id: category, count} for each category, compared as an exact
    string, that occurs among the month-m records, with count the number
    of month-m records of that category; a category with no month-m
    record has no pair. *)
Theorem pie_chart_groups (docs : list Transaction) (q : Req.query)
    (m : Z) :
  JS.parseInt_param (Req.month q) = Some m ->
  exists pie,
    App.api_pie_chart docs q = Json pie
    /\ NoDup (Mongo._id <$> pie)
    /\ forall (c : string) (n : nat),
         Mongo.mkCounted c n ∈ pie
         <-> n = Spec.category_count c (Spec.month_records m docs)
             /\ (0 < n)%nat.
Proof.
  intros Hm. unfold App.api_pie_chart. rewrite Hm, match_month_records.
  eexists. split; [reflexivity|]. split; [apply group_docs_ids|].
  intros c n. rewrite group_docs_elem, group_category_lookup.
  destruct (Nat.eqb_spec (Spec.category_count c (Spec.month_records m docs)) 0)
    as [E|E].
  - split; [done|]. intros [-> Hpos]. lia.
  - split.
    + intros [= <-]. split; [done | lia].
    + intros [-> _]. done.
Qed.

Lemma pie_chart_groups_witness :
  exists pie,
    App.api_pie_chart Samples.scenario (Req.mk (Some "3"%string) None None None) = Json pie
    /\ Mongo.mkCounted "home"%string 2 ∈ pie
    /\ Mongo.mkCounted "electronics"%string 0 ∉ pie.
Proof.
  destruct (pie_chart_groups Samples.scenario
              (Req.mk (Some "3"%string) None None None) 3
              ltac:(reflexivity)) as (pie & Hp & _ & Hiff).
  exists pie. split; [exact Hp|]. split.
  - apply Hiff. split; [reflexivity | lia].
  - intros H. apply Hiff in H. lia.
Defined.

(** ** Reloading the store *)

(** C10: when the fetch of the external source fails, or the parsing of
    its body does, /api/initialize answers 500 and the store is as it
    was: no operation was issued on it. *)
Theorem initialize_failure (d : App.deletion) (w : App.fetched)
    (st : App.state) :
  (forall data, w <> App.Body (Some data)) ->
  App.api_initialize d w st
  = (st, Some (Status500 "Failed to initialize database")).
Proof.
  intros Hw. destruct w as [|[data|]]; [done | | done].
  exfalso. by apply (Hw data).
Qed.

Lemma initialize_failure_witness :
  App.api_initialize App.Resolves App.NetworkError
    (App.mkState Samples.scenario [])
  = (App.mkState Samples.scenario [],
     Some (Status500 "Failed to initialize database"))
  /\ App.api_initialize App.Rejects (App.Body None)
       (App.mkState Samples.scenario [])
     = (App.mkState Samples.scenario [],
        Some (Status500 "Failed to initialize database")).
Proof.
  split; apply initialize_failure; intros data; discriminate.
Defined.

(** A successful reload leaves the new documents and nothing else. *)
Lemma initialize_replaces (l : list Transaction) (st : App.state) :
  App.api_initialize App.Resolves (App.Body (Some (App.Documents l))) st
  = (App.mkState l (App.journal st ++ [App.DeleteMany; App.InsertMany]),
     Some (Json "Database initialized successfully"%string)).
Proof. cbv -[app]. by rewrite <- app_assoc. Qed.

(** ** Search texts without operators *)

Lemma plain_String (c : ascii) (s : string) :
  Spec.plain (String c s) = true ->
  Regex.is_meta c = false /\ Spec.plain s = true.
Proof.
  unfold Spec.plain. cbn [list_ascii_of_string forallb].
  intros [H1 H2]%andb_prop. split; [|exact H2]. by destruct (Regex.is_meta c).
Qed.

Lemma tokens_ordinary (c : ascii) (s : string) :
  Regex.is_meta c = false ->
  Regex.tokens (String c s) = Regex.TAtom (Regex.Lit c) :: Regex.tokens s.
Proof.
  intros H. pose proof H as H'. unfold Regex.is_meta in H'.
  cbn [list_ascii_of_string existsb] in H'.
  repeat match type of H' with
         | (_ || _) = false => apply orb_false_elim in H' as [? H']
         end.
  cbn [Regex.tokens]. unfold Regex.token_of.
  repeat match goal with
         | E : Ascii.eqb c ?x = false |- context [Ascii.eqb c ?x] => rewrite E
         end.
  by rewrite H.
Qed.

Lemma tokens_plain (s : string) :
  Spec.plain s = true ->
  Regex.tokens s
  = map (fun p : Regex.piece => Regex.TAtom p.1) (literal s).
Proof.
  induction s as [|c s IH]; [done|]. intros [Hc Hs]%plain_String.
  rewrite tokens_ordinary by done. simpl. f_equal. by apply IH.
Qed.

Lemma pieces_literal (s : string) :
  Regex.pieces (map (fun p : Regex.piece => Regex.TAtom p.1) (literal s))
  = Regex.Pattern (literal s).
Proof.
  induction s as [|c s IH]; [done|].
  cbn [literal map Regex.pieces fst]. rewrite IH.
  by destruct s.
Qed.

Lemma no_other_literal (s : string) :
  existsb Regex.is_other
    (map (fun p : Regex.piece => Regex.TAtom p.1) (literal s)) = false.
Proof. induction s as [|c s IH]; [done|]. exact IH. Qed.

(** A plain text compiles to itself. *)
Lemma compile_plain (s : string) :
  Spec.plain s = true -> Regex.compile s = Regex.Pattern (literal s).
Proof.
  intros H. unfold Regex.compile. rewrite tokens_plain by done.
  by rewrite no_other_literal, pieces_literal.
Qed.

(** The caseless comparison of the patterns folds the capital letters
    and nothing else. *)
Lemma lower_small (c : ascii) : Regex.lower c = Spec.small c.
Proof. destruct c as [[] [] [] [] [] [] [] []]; vm_compute; reflexivity. Qed.

Lemma match_here_literal (s text : string) :
  Regex.match_here (literal s) text
  = Spec.starts_with (Spec.lowercase s) (Spec.lowercase text).
Proof.
  revert text. induction s as [|c s IH]; intros text; [done|].
  destruct text as [|d text]; [done|].
  cbn [literal Regex.match_here Spec.lowercase Spec.starts_with
       Regex.atom_matches].
  by rewrite IH, !lower_small.
Qed.

(** For a plain text the search of the pattern is the search of the
    substring, letter case apart. *)
Lemma search_literal (s text : string) :
  Regex.search (literal s) text = Spec.ci_contains s text.
Proof.
  unfold Spec.ci_contains. induction text as [|d text IH].
  - cbn [Regex.search Spec.lowercase Spec.occurs]. by rewrite match_here_literal.
  - cbn [Regex.search Spec.lowercase Spec.occurs].
    rewrite match_here_literal, IH. reflexivity.
Qed.

(** [ci_contains] is containment of the lowered texts. *)
Lemma starts_with_spec (needle hay : string) :
  Spec.starts_with needle hay = true <-> exists post, hay = needle +:+ post.
Proof.
  revert hay. induction needle as [|a n IH]; intros hay.
  - split; [by exists hay | done].
  - destruct hay as [|b h]; simpl.
    + split; [done | by intros [post H]].
    + rewrite andb_true_iff, IH. split.
      * intros [->%Ascii.eqb_eq [post ->]]. by exists post.
      * intros [post [= -> ->]]. split; [apply Ascii.eqb_refl | by exists post].
Qed.

Lemma occurs_spec (needle hay : string) :
  Spec.occurs needle hay = true
  <-> exists pre post, hay = pre +:+ needle +:+ post.
Proof.
  induction hay as [|b h IH].
  - cbn [Spec.occurs]. rewrite orb_false_r, starts_with_spec. split.
    + intros [post ->]. by exists ""%string, post.
    + intros ([|c pre] & post & H); [by exists post | done].
  - cbn [Spec.occurs]. rewrite orb_true_iff, starts_with_spec, IH. split.
    + intros [[post ->] | (pre & post & ->)].
      * by exists ""%string, post.
      * by exists (String b pre), post.
    + intros ([|c pre] & post & H).
      * left. by exists post.
      * right. injection H as -> ->. by exists pre, post.
Qed.

Lemma ci_contains_spec (s text : string) :
  Spec.ci_contains s text = true
  <-> exists pre post,
        Spec.lowercase text = pre +:+ Spec.lowercase s +:+ post.
Proof. apply occurs_spec. Qed.

(** ** The filtered listing *)

Lemma prepare_accepted (month search : option string) :
  accepted search ->
  exists p, Mongo.prepare (App.build_query month search) = Mongo.Predicate p.
Proof.
  intros Hs. unfold Mongo.prepare, App.build_query. cbn [Mongo.or].
  destruct search as [[|c s]|]; cbn [JS.truthy]; [by eexists| |by eexists].
  cbn [Mongo.pattern]. destruct (Hs _ eq_refl) as [ps ->]. by eexists.
Qed.

Lemma expr_holds_month (month search : option string) (mo : option Z)
    (t : Transaction) :
  Spec.month_param month mo ->
  Mongo.expr_holds (App.build_query month search) t
  = match mo with
    | Some m => monthOfYear (dateOfSale t) =? m
    | None => true
    end.
Proof.
  intros [|s m Hm]; [done|].
  unfold Mongo.expr_holds, App.build_query. cbn [Mongo.expr].
  destruct s as [|c s]; [discriminate|]. cbn [JS.truthy].
  change (JS.parseInt_param (Some (String c s))) with (JS.parseInt (String c s)).
  by rewrite Hm.
Qed.

(** A number that equals 0 is one of the two zeros. *)
Lemma is_zero_inv (x : float) :
  is_zero x = true -> x = 0%float \/ x = (-0)%float.
Proof.
  unfold is_zero. rewrite FloatAxioms.eqb_spec.
  change (Prim2SF PrimFloat.zero) with (S754_zero false). intros H.
  rewrite <- (SF2Prim_Prim2SF x).
  destruct (Prim2SF x) as [[]|[]| |[] m e]; try discriminate H; auto.
Qed.

(** [parseFloat(search) || 0] and the numeric parse of the
    specification select the same prices. *)
Lemma price_is_parse (s : string) (t : Transaction) :
  Mongo.price_is (JS.or_zero (JS.parseFloat s)) t
  = Spec.price_equals (Spec.numeric_parse s) t.
Proof.
  unfold Mongo.price_is, Spec.price_equals, JS.or_zero, Spec.numeric_parse.
  cbn zeta. destruct (is_nan (JS.parseFloat s)); [done|]. cbn [orb].
  destruct (is_zero (JS.parseFloat s)) eqn:Ez; [|done].
  destruct (is_zero_inv _ Ez) as [->| ->]; [done|].
  by rewrite eqb_neg_zero.
Qed.

(** On a plain search text the query denotes the predicate of the
    specification. *)
Lemma prepare_plain (month search : option string) (mo : option Z) :
  Spec.month_param month mo -> Spec.plain_search search ->
  exists p,
    Mongo.prepare (App.build_query month search) = Mongo.Predicate p
    /\ forall t, p t = Spec.satisfies mo search t.
Proof.
  intros Hm Hs. unfold Mongo.prepare.
  destruct search as [[|c s]|]; cbn [App.build_query Mongo.or JS.truthy].
  - eexists. split; [reflexivity|]. intros t.
    rewrite (expr_holds_month _ _ mo) by done. unfold Spec.satisfies.
    replace (Spec.ci_contains "" (title t)) with true
      by (unfold Spec.ci_contains; by destruct (Spec.lowercase (title t))).
    by rewrite andb_true_r.
  - cbn [Mongo.pattern]. rewrite compile_plain by by apply Hs.
    eexists. split; [reflexivity|]. intros t. cbn beta.
    rewrite (expr_holds_month _ _ mo) by done. unfold Spec.satisfies.
    cbn [Mongo.price_value]. by rewrite !search_literal, price_is_parse.
  - eexists. split; [reflexivity|]. intros t.
    rewrite (expr_holds_month _ _ mo) by done. unfold Spec.satisfies.
    by rewrite andb_true_r.
Qed.

Lemma unpaginated_filter (docs : list Transaction)
    (month search : option string) (p : Transaction -> bool) :
  Mongo.prepare (App.build_query month search) = Mongo.Predicate p ->
  unpaginated docs month search = Mongo.Done (filter (fun t => p t) docs).
Proof. intros H. unfold unpaginated, Mongo.find. by rewrite H. Qed.

(** The body of the listing when the store accepts the query and the
    skip is not negative. *)
Lemma listing_body (docs : list Transaction) (month search : option string)
    (page perPage : option Z) (p : Transaction -> bool) :
  Mongo.prepare (App.build_query month search) = Mongo.Predicate p ->
  0 <= (default 1 page - 1) * default 10 perPage ->
  App.api_transactions docs (Req.mk month search page perPage)
  = Some (Json
      {| Listing.transactions :=
           Mongo.limit (default 10 perPage)
             (drop (Z.to_nat ((default 1 page - 1) * default 10 perPage))
                (filter (fun t => p t) docs));
         Listing.total := length (filter (fun t => p t) docs);
         Listing.page := default 1 page;
         Listing.perPage := default 10 perPage;
         Listing.totalPages :=
           JS.ceil_div (Z.of_nat (length (filter (fun t => p t) docs)))
             (default 10 perPage) |}).
Proof.
  intros Hp Hskip. unfold App.api_transactions, Mongo.find, Mongo.countDocuments.
  cbn [Req.month Req.search Req.page Req.perPage]. rewrite Hp.
  by rewrite (proj2 (Z.ltb_ge _ _)) by exact Hskip.
Qed.

Lemma satisfies_spec (mo : option Z) (search : option string) (t : Transaction) :
  Spec.satisfies mo search t = true
  <-> (forall m, mo = Some m -> monthOfYear (dateOfSale t) = m)
      /\ (forall s, search = Some s ->
            Spec.ci_contains s (title t) = true
            \/ Spec.ci_contains s (description t) = true
            \/ Spec.price_equals (Spec.numeric_parse s) t = true).
Proof.
  unfold Spec.satisfies. rewrite andb_true_iff.
  assert (Hmonth : match mo with
                   | Some m => monthOfYear (dateOfSale t) =? m
                   | None => true
                   end = true
                   <-> forall m, mo = Some m -> monthOfYear (dateOfSale t) = m).
  { destruct mo as [m|]; [|by split]. rewrite Z.eqb_eq. split.
    - by intros -> ? [= <-].
    - intros H. by apply H. }
  rewrite Hmonth. clear Hmonth.
  destruct search as [s|].
  - rewrite !orb_true_iff. split.
    + intros [H1 H2]. split; [exact H1|]. intros ? [= <-]. tauto.
    + intros [H1 H2]. split; [exact H1|]. specialize (H2 s eq_refl). tauto.
  - split; [|tauto]. intros [H1 _]. split; [exact H1 | done].
Qed.

Lemma price_equals_not_numeric (s : string) (t : Transaction) :
  is_nan (JS.parseFloat s) = true ->
  Spec.numeric_parse s = 0%float
  /\ (Spec.price_equals (Spec.numeric_parse s) t = true
      <-> (price t =? 0)%float = true).
Proof.
  intros H. unfold Spec.numeric_parse. cbn zeta. by rewrite H.
Qed.

(** A quantifier with nothing to repeat: the store refuses the query
    and the listing answers 500. *)
Example listing_malformed_pattern :
  App.api_transactions Samples.scenario (Req.mk None (Some "*"%string) None None)
  = Some (Status500 "Failed to fetch transactions").
Proof. reflexivity. Qed.

(** C3, for a search text free of the operators of regular expressions:
    a record is among the matches of the listing if and only if its
    dateOfSale is of the month, when a month is given, and, when a search
    text is given, its title or its description contains the text, letter
    case apart, or its price equals the numeric parse of the text; a text
    that is not a number parses to 0 and then the price alternative holds
    of the records priced 0 only. *)
Theorem listing_matches (docs : list Transaction) (month search : option string)
    (mo : option Z) :
  Spec.month_param month mo -> Spec.plain_search search ->
  exists matches,
    unpaginated docs month search = Mongo.Done matches
    /\ (forall t,
          t ∈ matches
          <-> t ∈ docs
              /\ (forall m, mo = Some m -> monthOfYear (dateOfSale t) = m)
              /\ (forall s, search = Some s ->
                    Spec.ci_contains s (title t) = true
                    \/ Spec.ci_contains s (description t) = true
                    \/ Spec.price_equals (Spec.numeric_parse s) t = true))
    /\ (forall s t, is_nan (JS.parseFloat s) = true ->
          Spec.numeric_parse s = 0%float
          /\ (Spec.price_equals (Spec.numeric_parse s) t = true
              <-> (price t =? 0)%float = true)).
Proof.
  intros Hm Hs. destruct (prepare_plain month search mo Hm Hs) as (p & Hp & Hsat).
  eexists. split; [by apply unpaginated_filter|]. split.
  - intros t. rewrite list_elem_of_filter, <- satisfies_spec, <- Hsat.
    rewrite Is_true_true. tauto.
  - intros s t. apply price_equals_not_numeric.
Qed.

(** On the records of [Samples.mixed]: a text finds the title or the
    description that holds it in another letter case; a text that is
    not a number finds the record priced 0 next to those that hold it;
    a text that is a number finds the price that the literal rounds
    to. *)
Lemma listing_matches_witness :
  (exists matches,
     unpaginated Samples.mixed (Some "5"%string) (Some "oak SHELF"%string)
     = Mongo.Done matches
     /\ Samples.shelf ∈ matches
     /\ (Samples.ink ∉ matches))
  /\ (exists matches,
        unpaginated Samples.mixed None (Some "free"%string) = Mongo.Done matches
        /\ Samples.pen ∈ matches
        /\ (Samples.shelf ∉ matches)
        /\ (Samples.ink ∉ matches))
  /\ unpaginated Samples.mixed None (Some "wood"%string)
     = Mongo.Done [Samples.shelf; Samples.pen]
  /\ unpaginated Samples.mixed None (Some "0.1"%string)
     = Mongo.Done [Samples.ink]
  /\ unpaginated Samples.mixed None (Some "12.5 or so"%string)
     = Mongo.Done [Samples.shelf].
Proof.
  split; [|split; [|repeat split; vm_compute; reflexivity]].
  - destruct (listing_matches Samples.mixed (Some "5"%string)
                (Some "oak SHELF"%string) (Some 5))
      as (matches & Hu & Hiff & _).
    + by constructor.
    + intros s [= <-]. reflexivity.
    + exists matches. split; [exact Hu|]. split.
      * apply Hiff. split; [in_list|]. split; [by intros m [= <-]|].
        intros s [= <-]. left. reflexivity.
      * intros H. apply Hiff in H as (_ & _ & H).
        destruct (H _ eq_refl) as [H'|[H'|H']]; vm_compute in H'; discriminate.
  - destruct (listing_matches Samples.mixed None (Some "free"%string) None)
      as (matches & Hu & Hiff & Hnan).
    + constructor.
    + intros s [= <-]. reflexivity.
    + exists matches. split; [exact Hu|].
      destruct (Hnan "free"%string Samples.pen ltac:(vm_compute; reflexivity))
        as [Hzero Hprice].
      split; [|split].
      * apply Hiff. split; [in_list|]. split; [done|].
        intros s [= <-]. right. right. apply Hprice. reflexivity.
      * intros H. apply Hiff in H as (_ & _ & H).
        destruct (H _ eq_refl) as [H'|[H'|H']]; vm_compute in H'; discriminate.
      * intros H. apply Hiff in H as (_ & _ & H).
        destruct (H _ eq_refl) as [H'|[H'|H']]; vm_compute in H'; discriminate.
Defined.

(** The price alternative compares with the number that the text
    rounds to: a text below the least number reads as 0 and finds the
    record priced 0, and an integer beyond 2^53 finds the price that is
    the nearest number. *)
Example listing_rounded_search :
  unpaginated Samples.mixed None (Some "1e-400"%string)
  = Mongo.Done [Samples.pen]
  /\ unpaginated [Samples.record 8 "bond" 9007199254740992 "bank" true 7]
       None (Some "9007199254740993"%string)
     = Mongo.Done [Samples.record 8 "bond" 9007199254740992 "bank" true 7]
  /\ Spec.satisfies None (Some "9007199254740993"%string)
       (Samples.record 8 "bond" 9007199254740992 "bank" true 7) = true.
Proof. repeat split; vm_compute; reflexivity. Qed.

(** A search text with an operator is read as a pattern: the dot
    matches the title of a record that does not contain it, whose
    description is empty and whose price is not 0. *)
Lemma search_dot_is_a_pattern :
  let t := Samples.record 1 "lamp" 50 "home" true 3 in
  App.api_transactions Samples.scenario (Req.mk None (Some "."%string) None None)
  = Some (Json (Listing.mk Samples.scenario 3 1 10 (Some 1)))
  /\ unpaginated Samples.scenario None (Some "."%string)
     = Mongo.Done Samples.scenario
  /\ t ∈ Samples.scenario
  /\ ~ (t ∈ Samples.scenario
        /\ (forall m, @None Z = Some m -> monthOfYear (dateOfSale t) = m)
        /\ (forall s, Some "."%string = Some s ->
              Spec.ci_contains s (title t) = true
              \/ Spec.ci_contains s (description t) = true
              \/ Spec.price_equals (Spec.numeric_parse s) t = true)).
Proof.
  intros t. split; [vm_compute; reflexivity|].
  split; [vm_compute; reflexivity|]. split; [in_list|].
  intros (_ & _ & H).
  destruct (H _ eq_refl) as [H'|[H'|H']]; vm_compute in H'; discriminate.
Qed.

(** [Math.ceil] of the quotient is the least number of pages that hold
    [total] records. *)
Lemma ceil_div_spec (total perPage : Z) :
  1 <= perPage ->
  exists tp,
    JS.ceil_div total perPage = Some tp
    /\ (tp - 1) * perPage < total <= tp * perPage.
Proof.
  intros Hpp. unfold JS.ceil_div.
  rewrite (proj2 (Z.eqb_neq _ _)) by lia. eexists. split; [reflexivity|].
  pose proof (Z.div_mod (- total) perPage ltac:(lia)) as Hdm.
  pose proof (Z.mod_pos_bound (- total) perPage ltac:(lia)) as Hb.
  nia.
Qed.

Lemma limit_take (n : Z) (l : list Transaction) :
  1 <= n -> Mongo.limit n l = take (Z.to_nat n) l.
Proof.
  intros Hn. unfold Mongo.limit. rewrite (proj2 (Z.eqb_neq _ _)) by lia.
  f_equal. lia.
Qed.

(** The records that satisfy the filter, in storage order, are what the
    query of a plain search text selects. *)
Lemma satisfying_filter (docs : list Transaction) (month search : option string)
    (mo : option Z) :
  Spec.month_param month mo -> Spec.plain_search search ->
  exists p,
    Mongo.prepare (App.build_query month search) = Mongo.Predicate p
    /\ filter (fun t => p t) docs
       = filter (fun t => Spec.satisfies mo search t) docs.
Proof.
  intros Hm Hs. destruct (prepare_plain month search mo Hm Hs) as (p & Hp & Hsat).
  exists p. split; [exact Hp|]. apply list_filter_iff. intros t. by rewrite Hsat.
Qed.

(** C7, for a search text free of the operators of regular expressions
    and a skip (page-1)*perPage that is not negative: the total of the
    listing is the number of the records that satisfy the predicate of
    the filter (the month, when there is one, and the search text, when
    there is one), whatever page and perPage are. *)
Theorem listing_total (docs : list Transaction) (month search : option string)
    (page perPage : option Z) (mo : option Z) :
  Spec.month_param month mo -> Spec.plain_search search ->
  0 <= (default 1 page - 1) * default 10 perPage ->
  exists r,
    App.api_transactions docs (Req.mk month search page perPage) = Some (Json r)
    /\ Listing.total r
       = length (filter (fun t => Spec.satisfies mo search t) docs).
Proof.
  intros Hm Hs Hskip.
  destruct (satisfying_filter docs month search mo Hm Hs) as (p & Hp & Hf).
  eexists. split; [by apply (listing_body _ _ _ _ _ p Hp)|].
  cbn [Listing.total]. by rewrite Hf.
Qed.

Lemma listing_total_witness :
  exists r r',
    App.api_transactions Samples.scenario
      (Req.mk (Some "3"%string) (Some "DESK"%string) (Some 7) (Some 1))
    = Some (Json r)
    /\ Listing.total r = 1%nat
    /\ App.api_transactions Samples.scenario
         (Req.mk (Some "3"%string) (Some "DESK"%string) (Some 1) (Some 0))
       = Some (Json r')
    /\ Listing.total r' = 1%nat.
Proof.
  destruct (listing_total Samples.scenario (Some "3"%string)
              (Some "DESK"%string) (Some 7) (Some 1) (Some 3))
    as (r & Hr & Htotal);
    [by constructor | intros s [= <-]; reflexivity | simpl; lia |].
  destruct (listing_total Samples.scenario (Some "3"%string)
              (Some "DESK"%string) (Some 1) (Some 0) (Some 3))
    as (r' & Hr' & Htotal');
    [by constructor | intros s [= <-]; reflexivity | simpl; lia |].
  exists r, r'. repeat split; [exact Hr | | exact Hr' |].
  - rewrite Htotal. vm_compute. reflexivity.
  - rewrite Htotal'. vm_compute. reflexivity.
Defined.

(** With the search text "." the total is 3 and no record satisfies the
    predicate of the filter: no title and no description has a dot, and
    no price is 0, the numeric parse of the text. *)
Lemma listing_total_dot :
  exists r,
    App.api_transactions Samples.scenario
      (Req.mk None (Some "."%string) (Some 1) (Some 10)) = Some (Json r)
    /\ Listing.total r = 3%nat
    /\ length (filter (fun t => Spec.satisfies None (Some "."%string) t)
                 Samples.scenario) = 0%nat
    /\ Listing.total r
       <> length (filter (fun t => Spec.satisfies None (Some "."%string) t)
                    Samples.scenario).
Proof.
  eexists. split; [vm_compute; reflexivity|]. cbn [Listing.total].
  assert (H : length (filter (fun t => Spec.satisfies None (Some "."%string) t)
                        Samples.scenario) = 0%nat) by (vm_compute; reflexivity).
  rewrite H. repeat split. discriminate.
Qed.

(** C8, for a search text free of the operators of regular expressions:
    with page >= 1 and perPage >= 1 the listing returns the records that
    satisfy the filter, in storage order, from position (page-1)*perPage
    on and at most perPage of them, with their number as total and
    totalPages = ceil(total/perPage); a page beyond totalPages is an
    empty slice, not an error. *)
Theorem listing_page (docs : list Transaction) (month search : option string)
    (page perPage : option Z) (mo : option Z) :
  Spec.month_param month mo -> Spec.plain_search search ->
  1 <= default 1 page -> 1 <= default 10 perPage ->
  let matching := filter (fun t => Spec.satisfies mo search t) docs in
  exists r tp,
    App.api_transactions docs (Req.mk month search page perPage) = Some (Json r)
    /\ sublist matching docs
    /\ Listing.transactions r
       = take (Z.to_nat (default 10 perPage))
           (drop (Z.to_nat ((default 1 page - 1) * default 10 perPage)) matching)
    /\ Z.of_nat (length (Listing.transactions r)) <= default 10 perPage
    /\ Listing.total r = length matching
    /\ Listing.totalPages r = Some tp
    /\ (tp - 1) * default 10 perPage < Z.of_nat (length matching)
       <= tp * default 10 perPage
    /\ (tp < default 1 page -> Listing.transactions r = []).
Proof.
  intros Hm Hs Hp Hpp matching.
  destruct (satisfying_filter docs month search mo Hm Hs) as (p & Hprep & Hf).
  fold matching in Hf.
  destruct (ceil_div_spec (Z.of_nat (length matching)) (default 10 perPage) Hpp)
    as (tp & Htp & Hbounds).
  eexists. exists tp.
  split; [apply (listing_body _ _ _ _ _ p Hprep); nia|].
  cbn [Listing.transactions Listing.total Listing.totalPages].
  rewrite limit_take by done. rewrite Hf.
  split; [apply sublist_filter|].
  split; [reflexivity|].
  split; [rewrite length_take; lia|].
  split; [reflexivity|].
  split; [exact Htp|].
  split; [exact Hbounds|].
  intros Hbeyond. rewrite drop_ge; [by rewrite take_nil|]. nia.
Qed.

(** The scenario: page 5 of 10 per page over 12 matches. *)
Lemma listing_page_witness :
  exists r,
    App.api_transactions (Samples.march 12 1 ++ Samples.scenario)
      (Req.mk (Some "3"%string) (Some "ITEM"%string) (Some 5) (Some 10))
    = Some (Json r)
    /\ Listing.total r = 12%nat
    /\ Listing.totalPages r = Some 2
    /\ Listing.transactions r = [].
Proof.
  destruct (listing_page (Samples.march 12 1 ++ Samples.scenario)
              (Some "3"%string) (Some "ITEM"%string) (Some 5) (Some 10) (Some 3))
    as (r & tp & Hr & _ & _ & _ & Htotal & Htp & Hb & Hempty).
  - by constructor.
  - intros s [= <-]. reflexivity.
  - simpl. lia.
  - simpl. lia.
  - assert (Hlen : length (filter (fun t => Spec.satisfies (Some 3)
                                      (Some "ITEM"%string) t)
                             (Samples.march 12 1 ++ Samples.scenario)) = 12%nat)
      by (vm_compute; reflexivity).
    rewrite Hlen in Htotal, Hb. simpl in Hb, Hempty.
    assert (tp = 2) as -> by lia.
    exists r. repeat split; [exact Hr | exact Htotal | exact Htp |].
    apply Hempty. lia.
Defined.

(** With the search text "." the first page holds the three records of
    the collection, none of which satisfies the predicate of the filter;
    with the search text "*", which no record contains either, the
    listing is an error 500 and not an empty slice. *)
Lemma listing_page_operators :
  (exists r,
     App.api_transactions Samples.scenario
       (Req.mk None (Some "."%string) (Some 1) (Some 10)) = Some (Json r)
     /\ Listing.transactions r = Samples.scenario
     /\ filter (fun t => Spec.satisfies None (Some "."%string) t)
          Samples.scenario = [])
  /\ App.api_transactions Samples.scenario
       (Req.mk None (Some "*"%string) (Some 1) (Some 10))
     = Some (Status500 "Failed to fetch transactions")
  /\ filter (fun t => Spec.satisfies None (Some "*"%string) t)
       Samples.scenario = [].
Proof.
  split; [|split; vm_compute; reflexivity].
  eexists. split; [vm_compute; reflexivity|].
  split; vm_compute; reflexivity.
Qed.

(** ** The combined view *)

(** C2, as the code has it: the transactions component of
    /api/combined-data is the body of /api/transactions for the month
    alone, with the default page 1 and perPage 10: the first ten
    month-m records at most, in storage order, with the total of all of
    them; it is the whole month when the month has at most ten
    records. *)
Theorem combined_transactions (docs : list Transaction) (month : string)
    (search : option string) (page perPage : option Z) (m : Z) :
  JS.parseInt month = Some m -> App.url_plain month = true ->
  exists c l,
    App.api_combined_data docs (Req.mk (Some month) search page perPage)
    = Some (Json c)
    /\ Combined.transactions c = Json l
    /\ Listing.transactions l = take 10 (Spec.month_records m docs)
    /\ Listing.total l = length (Spec.month_records m docs)
    /\ Listing.page l = 1
    /\ Listing.perPage l = 10
    /\ ((length (Spec.month_records m docs) <= 10)%nat ->
        Listing.transactions l = Spec.month_records m docs).
Proof.
  intros Hm Hplain.
  destruct (prepare_plain (Some month) None (Some m)) as (p & Hp & Hsat).
  { by constructor. }
  { intros s [=]. }
  assert (Hf : filter (fun t => p t) docs = Spec.month_records m docs).
  { apply list_filter_iff. intros t. rewrite Hsat. unfold Spec.satisfies.
    rewrite andb_true_r, Is_true_true. apply Z.eqb_eq. }
  unfold App.api_combined_data, App.interpolated.
  cbn [Req.month default from_option id]. rewrite Hplain.
  rewrite (listing_body docs (Some month) None None None p Hp) by (simpl; lia).
  eexists. eexists. split; [reflexivity|].
  cbn [Combined.transactions Listing.transactions Listing.total Listing.page
       Listing.perPage default from_option id].
  rewrite Hf. change (Z.to_nat ((1 - 1) * 10)) with O. rewrite drop_0.
  rewrite limit_take by lia. change (Z.to_nat 10) with 10%nat.
  repeat split. intros Hle. by apply take_ge.
Qed.

Lemma combined_transactions_witness :
  exists c l,
    App.api_combined_data Samples.scenario
      (Req.mk (Some "3"%string) None None None) = Some (Json c)
    /\ Combined.transactions c = Json l
    /\ Listing.transactions l = Spec.month_records 3 Samples.scenario.
Proof.
  destruct (combined_transactions Samples.scenario "3" None None None 3)
    as (c & l & Hc & Hl & _ & _ & _ & _ & Hall); [reflexivity..|].
  exists c, l. repeat split; [exact Hc | exact Hl |].
  apply Hall. vm_compute. lia.
Defined.

(** With eleven records in March the transactions component holds the
    first ten: it is not the full listing of the month. *)
Lemma combined_eleven_truncated :
  exists c l,
    App.api_combined_data (Samples.march 11 1)
      (Req.mk (Some "3"%string) None None None) = Some (Json c)
    /\ Combined.transactions c = Json l
    /\ Listing.transactions l = Samples.march 10 1
    /\ Spec.month_records 3 (Samples.march 11 1) = Samples.march 11 1
    /\ Listing.transactions l <> Spec.month_records 3 (Samples.march 11 1).
Proof.
  eexists. eexists. split; [vm_compute; reflexivity|].
  split; [reflexivity|]. split; [reflexivity|]. split; [vm_compute; reflexivity|].
  intros H. apply (f_equal length) in H. vm_compute in H. discriminate.
Qed.

(** * Further properties of the handlers *)

(** ** The pages of the listing *)

Lemma take_chunks {A : Type} (l : list A) (n k : nat) :
  concat (map (fun i => take n (drop (i * n) l)) (seq 0 k)) = take (k * n) l.
Proof.
  induction k as [|k IH]; [done|].
  rewrite seq_S, map_app, concat_app, IH. cbn [map concat Nat.add].
  rewrite app_nil_r, take_take_drop. f_equal. lia.
Qed.

(** One page, when the store accepts the query and the page is
    positive. *)
Lemma page_slice_take (docs : list Transaction) (month search : option string)
    (perPage page : Z) (p : Transaction -> bool) :
  Mongo.prepare (App.build_query month search) = Mongo.Predicate p ->
  1 <= perPage -> 1 <= page ->
  page_slice docs month search perPage page
  = take (Z.to_nat perPage)
      (drop ((Z.to_nat page - 1) * Z.to_nat perPage) (filter (fun t => p t) docs)).
Proof.
  intros Hp Hpp Hpage. unfold page_slice.
  rewrite (listing_body docs month search (Some page) (Some perPage) p Hp)
    by (simpl; nia).
  cbn [Listing.transactions default from_option id].
  rewrite limit_take by done. do 2 f_equal. nia.
Qed.

Lemma page_count_ceil (docs : list Transaction) (month search : option string)
    (perPage : Z) (p : Transaction -> bool) :
  Mongo.prepare (App.build_query month search) = Mongo.Predicate p ->
  1 <= perPage ->
  (length (filter (fun t => p t) docs)
   <= page_count docs month search perPage * Z.to_nat perPage)%nat
  /\ ((page_count docs month search perPage - 1) * Z.to_nat perPage
      < length (filter (fun t => p t) docs)
      \/ page_count docs month search perPage = O)%nat.
Proof.
  intros Hp Hpp. unfold page_count.
  rewrite (listing_body docs month search (Some 1) (Some perPage) p Hp)
    by (simpl; lia).
  cbn [Listing.totalPages default from_option id].
  destruct (ceil_div_spec (Z.of_nat (length (filter (fun t => p t) docs)))
              perPage Hpp) as (tp & -> & Hb).
  cbn [default from_option id]. split; [nia|].
  destruct (decide (tp <= 0)) as [Hz|Hz]; [right; lia | left; nia].
Qed.

(** X1: the pages 1 to totalPages of the listing, one after the other,
    are the matches of the query, each once and in storage order. *)
Theorem pages_cover_matches (docs : list Transaction)
    (month search : option string) (perPage : Z) :
  accepted search -> 1 <= perPage ->
  unpaginated docs month search
  = Mongo.Done
      (concat (map (fun k => page_slice docs month search perPage (Z.of_nat k))
                 (seq 1 (page_count docs month search perPage)))).
Proof.
  intros Hs Hpp. destruct (prepare_accepted month search Hs) as [p Hp].
  rewrite (unpaginated_filter docs month search p Hp). f_equal.
  destruct (page_count_ceil docs month search perPage p Hp Hpp) as [Hle _].
  rewrite <- fmap_S_seq, <- list_fmap_compose.
  rewrite (map_ext _ (fun i => take (Z.to_nat perPage)
                       (drop (i * Z.to_nat perPage) (filter (fun t => p t) docs)))).
  - rewrite take_chunks. symmetry. by apply take_ge.
  - intros i. cbn [compose]. rewrite (page_slice_take _ _ _ _ _ p) by (done || lia).
    do 3 f_equal. lia.
Qed.

Lemma pages_cover_matches_witness :
  concat (map (fun k => page_slice (Samples.march 12 1) (Some "3"%string) None
                          5 (Z.of_nat k))
            (seq 1 (page_count (Samples.march 12 1) (Some "3"%string) None 5)))
  = Samples.march 12 1
  /\ page_count (Samples.march 12 1) (Some "3"%string) None 5 = 3%nat.
Proof.
  split; [|vm_compute; reflexivity].
  pose proof (pages_cover_matches (Samples.march 12 1) (Some "3"%string) None 5)
    as H.
  assert (Hu : unpaginated (Samples.march 12 1) (Some "3"%string) None
               = Mongo.Done (Samples.march 12 1)) by (vm_compute; reflexivity).
  rewrite Hu in H. symmetry.
  assert (Hinj : forall a b : list Transaction, Mongo.Done a = Mongo.Done b -> a = b)
    by (by intros a b [=]).
  apply Hinj, H; [intros s [=] | lia].
Defined.

(** X2: a page from 1 to totalPages is never empty; every page before
    the last holds perPage records and the last one holds the rest. *)
Theorem page_in_range_filled (docs : list Transaction)
    (month search : option string) (page perPage : Z) :
  accepted search -> 1 <= perPage -> 1 <= page ->
  exists r tp,
    App.api_transactions docs (Req.mk month search (Some page) (Some perPage))
    = Some (Json r)
    /\ Listing.totalPages r = Some tp
    /\ (page <= tp -> Listing.transactions r <> [])
    /\ (page < tp -> Z.of_nat (length (Listing.transactions r)) = perPage)
    /\ (page = tp ->
        Z.of_nat (length (Listing.transactions r))
        = Z.of_nat (Listing.total r) - (tp - 1) * perPage).
Proof.
  intros Hs Hpp Hpage. destruct (prepare_accepted month search Hs) as [p Hp].
  destruct (ceil_div_spec (Z.of_nat (length (filter (fun t => p t) docs)))
              perPage Hpp) as (tp & Htp & Hb).
  eexists. exists tp.
  split; [apply (listing_body _ _ _ _ _ p Hp); simpl; nia|].
  cbn [Listing.transactions Listing.total Listing.totalPages default
       from_option id].
  rewrite limit_take by done. split; [exact Htp|].
  set (l := filter (fun t => p t) docs) in *.
  assert (Hlen : length (take (Z.to_nat perPage)
                           (drop (Z.to_nat ((page - 1) * perPage)) l))
                 = Nat.min (Z.to_nat perPage)
                     (length l - Z.to_nat ((page - 1) * perPage)))
    by (by rewrite length_take, length_drop).
  split; [|split].
  - intros Hle Hnil. rewrite Hnil in Hlen. simpl in Hlen. nia.
  - intros Hlt. rewrite Hlen. nia.
  - intros ->. rewrite Hlen. nia.
Qed.

Lemma page_in_range_filled_witness :
  exists r,
    App.api_transactions (Samples.march 12 1)
      (Req.mk (Some "3"%string) None (Some 2) (Some 10)) = Some (Json r)
    /\ Listing.totalPages r = Some 2
    /\ length (Listing.transactions r) = 2%nat.
Proof.
  destruct (page_in_range_filled (Samples.march 12 1) (Some "3"%string) None
              2 10) as (r & tp & Hr & Htp & _ & _ & Hlast);
    [intros s [=] | lia | lia |].
  pose proof Hr as Hr'. vm_compute in Hr'. injection Hr' as Hr'.
  rewrite <- Hr' in Htp. simpl in Htp. injection Htp as <-.
  exists r. split; [exact Hr|]. split; [by rewrite <- Hr'|].
  specialize (Hlast eq_refl). rewrite <- Hr' in Hlast at 2. simpl in Hlast. lia.
Defined.

(** X3: with perPage = 0 the limit is no limit and the skip is 0: every
    page returns all the matches, and totalPages is null. *)
Theorem per_page_zero_unlimited (docs : list Transaction)
    (month search : option string) (page : option Z) :
  accepted search ->
  exists matches,
    unpaginated docs month search = Mongo.Done matches
    /\ App.api_transactions docs (Req.mk month search page (Some 0))
       = Some (Json (Listing.mk matches (length matches) (default 1 page) 0 None)).
Proof.
  intros Hs. destruct (prepare_accepted month search Hs) as [p Hp].
  eexists. split; [by apply unpaginated_filter|].
  rewrite (listing_body docs month search page (Some 0) p Hp)
    by (cbn [default from_option id]; lia).
  cbn [default from_option id]. rewrite Z.mul_0_r. reflexivity.
Qed.

Lemma per_page_zero_unlimited_witness :
  App.api_transactions (Samples.march 12 1)
    (Req.mk (Some "3"%string) None (Some 7) (Some 0))
  = Some (Json (Listing.mk (Samples.march 12 1) 12 7 0 None)).
Proof.
  destruct (per_page_zero_unlimited (Samples.march 12 1) (Some "3"%string)
              None (Some 7)) as (matches & Hu & Hr); [intros s [=]|].
  vm_compute in Hu. injection Hu as <-. exact Hr.
Defined.

(** X4: a page below 1 makes the skip negative, which the store
    refuses: the listing answers 500, not the first page. *)
Theorem page_below_one_fails (docs : list Transaction)
    (month search : option string) (page : Z) (perPage : option Z) :
  accepted search -> page <= 0 -> 1 <= default 10 perPage ->
  App.api_transactions docs (Req.mk month search (Some page) perPage)
  = Some (Status500 "Failed to fetch transactions").
Proof.
  intros Hs Hpage Hpp. destruct (prepare_accepted month search Hs) as [p Hp].
  unfold App.api_transactions, Mongo.find.
  cbn [Req.month Req.search Req.page Req.perPage default from_option id].
  rewrite Hp. by rewrite (proj2 (Z.ltb_lt _ _)) by nia.
Qed.

Lemma page_below_one_fails_witness :
  App.api_transactions Samples.scenario (Req.mk None None (Some 0) None)
  = Some (Status500 "Failed to fetch transactions").
Proof.
  apply page_below_one_fails; [intros s [=] | lia | simpl; lia].
Defined.

(** ** Search texts that the store refuses, letter case *)

Lemma tokens_quantifier (c : ascii) (s : string) :
  In c (list_ascii_of_string "*+?") ->
  exists q, Regex.tokens (String c s) = Regex.TQuant q :: Regex.tokens s.
Proof.
  cbn [list_ascii_of_string In].
  intros [<-|[<-|[<-|[]]]]; eexists; reflexivity.
Qed.

Lemma compile_leading_quantifier (c : ascii) (s : string) :
  In c (list_ascii_of_string "*+?") -> Spec.plain s = true ->
  Regex.compile (String c s) = Regex.Malformed.
Proof.
  intros Hc Hs. unfold Regex.compile.
  destruct (tokens_quantifier c s Hc) as [q ->].
  rewrite tokens_plain by done. cbn [existsb Regex.is_other orb].
  by rewrite no_other_literal.
Qed.

(** X5: a search text that begins with [*], [+] or [?] and goes on
    without operators is a pattern with nothing to repeat: the listing
    answers 500 whatever the records, the month and the page. *)
Theorem leading_quantifier_fails (docs : list Transaction) (c : ascii)
    (s : string) (month : option string) (page perPage : option Z) :
  In c (list_ascii_of_string "*+?") -> Spec.plain s = true ->
  App.api_transactions docs (Req.mk month (Some (String c s)) page perPage)
  = Some (Status500 "Failed to fetch transactions").
Proof.
  intros Hc Hs. unfold App.api_transactions, Mongo.find, Mongo.prepare.
  cbn [Req.month Req.search Req.page Req.perPage App.build_query Mongo.or
       JS.truthy Mongo.pattern].
  by rewrite compile_leading_quantifier.
Qed.

Lemma leading_quantifier_fails_witness :
  App.api_transactions Samples.scenario
    (Req.mk (Some "3"%string) (Some "?desk"%string) None None)
  = Some (Status500 "Failed to fetch transactions").
Proof.
  apply (leading_quantifier_fails Samples.scenario "?" "desk");
    [simpl; tauto | reflexivity].
Defined.

Lemma lowercase_empty (s s' : string) :
  Spec.lowercase s = Spec.lowercase s' -> JS.truthy (Some s) = JS.truthy (Some s').
Proof. by destruct s, s'. Qed.

Lemma find_ext (q q' : Mongo.query) (p p' : Transaction -> bool)
    (docs : list Transaction) :
  Mongo.prepare q = Mongo.Predicate p -> Mongo.prepare q' = Mongo.Predicate p' ->
  (forall t, p t = p' t) ->
  (forall s n, Mongo.find q s n docs = Mongo.find q' s n docs)
  /\ Mongo.countDocuments q docs = Mongo.countDocuments q' docs.
Proof.
  intros Hp Hp' Hext. unfold Mongo.find, Mongo.countDocuments. rewrite Hp, Hp'.
  assert (Hf : filter (fun t => p t) docs = filter (fun t => p' t) docs)
    by (apply list_filter_iff; intros t; by rewrite Hext).
  rewrite Hf. split; [intros s n|]; reflexivity.
Qed.

(** The predicate of a query with a plain search text, spelled out. *)
Lemma prepare_plain_text (month : option string) (s : string) :
  Spec.plain s = true ->
  exists p,
    Mongo.prepare (App.build_query month (Some s)) = Mongo.Predicate p
    /\ forall t,
         p t
         = Mongo.expr_holds (App.build_query month None) t
           && (Spec.occurs (Spec.lowercase s) (Spec.lowercase (title t))
               || Spec.occurs (Spec.lowercase s) (Spec.lowercase (description t))
               || Spec.price_equals (Spec.numeric_parse s) t).
Proof.
  intros Hs. unfold Mongo.prepare.
  destruct s as [|c s]; cbn [App.build_query Mongo.or JS.truthy].
  - eexists. split; [reflexivity|]. intros t. cbn [Spec.lowercase].
    replace (Spec.occurs "" (Spec.lowercase (title t))) with true
      by (by destruct (Spec.lowercase (title t))).
    cbn [orb]. by rewrite andb_true_r.
  - cbn [Mongo.pattern]. rewrite compile_plain by done.
    eexists. split; [reflexivity|]. intros t. cbn beta.
    cbn [Mongo.price_value]. by rewrite !search_literal, price_is_parse.
Qed.

(** X6: the letter case of a search text without operators does not
    matter: two such texts that differ in case only, and read as the
    same number, get the same answer. *)
Theorem search_ignores_case (docs : list Transaction) (s s' : string)
    (month : option string) (page perPage : option Z) :
  Spec.plain s = true -> Spec.plain s' = true ->
  Spec.lowercase s = Spec.lowercase s' ->
  Spec.numeric_parse s = Spec.numeric_parse s' ->
  App.api_transactions docs (Req.mk month (Some s) page perPage)
  = App.api_transactions docs (Req.mk month (Some s') page perPage).
Proof.
  intros Hs Hs' Hlow Hnum.
  destruct (prepare_plain_text month s Hs) as (p & Hp & Hpt).
  destruct (prepare_plain_text month s' Hs') as (p' & Hp' & Hpt').
  destruct (find_ext _ _ p p' docs Hp Hp') as [Hfind Hcount].
  { intros t. by rewrite Hpt, Hpt', Hlow, Hnum. }
  unfold App.api_transactions.
  cbn [Req.month Req.search Req.page Req.perPage].
  by rewrite Hfind, Hcount.
Qed.

Lemma search_ignores_case_witness :
  App.api_transactions Samples.scenario (Req.mk None (Some "DeSk"%string) None None)
  = App.api_transactions Samples.scenario (Req.mk None (Some "desk"%string) None None).
Proof.
  apply search_ignores_case; reflexivity.
Defined.

(** ** The entries of the histogram *)

Lemma overlay_lookup_lt (items : list (Mongo.counted Mongo.bucket_id))
    (entries : list Bar.t) (i : nat) (item : Mongo.counted Mongo.bucket_id)
    (b : Bar.t) :
  items !! i = Some item -> entries !! i = Some b ->
  overlay items entries !! i = Some (Bar.mk (Bar.range b) (Mongo.count item)).
Proof.
  revert entries i. induction items as [|x items IH]; intros entries i Hi Hb;
    [done|].
  destruct entries as [|e entries]; [done|]. destruct i as [|i].
  - simpl in *. by injection Hi as ->; injection Hb as ->.
  - simpl in *. by apply IH.
Qed.

Lemma overlay_lookup_ge (items : list (Mongo.counted Mongo.bucket_id))
    (entries : list Bar.t) (i : nat) :
  (length items <= i)%nat -> overlay items entries !! i = entries !! i.
Proof.
  revert entries i. induction items as [|x items IH]; intros entries i Hi.
  - by destruct entries.
  - destruct entries as [|e entries]; [done|]. destruct i as [|i]; simpl in *.
    + lia.
    + apply IH. lia.
Qed.

Lemma bucket_nonempty (docs : list Transaction) :
  Forall (fun c => (0 < Mongo.count c)%nat)
    (Mongo.bucket App.boundaries "901-above" docs).
Proof.
  unfold Mongo.bucket. apply Forall_forall. intros c Hc.
  apply list_elem_of_In, filter_In in Hc as [_ Hc]. unfold Mongo.nonempty in Hc.
  destruct (Nat.eqb_spec (Mongo.count c) 0); [done | lia].
Qed.

(** X7: the body of /api/bar-chart has the ten labels in their fixed
    order, whatever the records and the month. *)
Theorem bar_chart_labels (docs : list Transaction) (q : Req.query) :
  exists result,
    App.api_bar_chart docs q = Json result
    /\ Bar.range <$> result
       = ["0 - 100"; "101 - 200"; "201 - 300"; "301 - 400"; "401 - 500";
          "501 - 600"; "601 - 700"; "701 - 800"; "801 - 900";
          "901 - above"]%string.
Proof.
  rewrite bar_chart_overlay. eexists. split; [reflexivity|].
  by rewrite overlay_ranges.
Qed.


(** ** Where the histogram is right *)

Lemma leb_false_mono (a b x : float) :
  (a <=? b)%float = true -> (a <=? x)%float = false -> (b <=? x)%float = false.
Proof.
  intros Hab Ha. destruct (b <=? x)%float eqn:Hb; [|done].
  by rewrite (leb_trans a b x Hab Hb) in Ha.
Qed.

(** Against sorted boundaries a price is at or above the first [n] of
    them and below the others. *)
Lemma thresholds (bs : list float) (x : float) :
  StronglySorted (fun a b => (a <=? b)%float = true) bs ->
  exists n, (n <= length bs)%nat
    /\ map (fun b => (b <=? x)%float) bs
       = replicate n true ++ replicate (length bs - n) false.
Proof.
  induction 1 as [|b bs Hs IH Hb].
  - by exists O.
  - destruct (b <=? x)%float eqn:E.
    + destruct IH as (n & Hn & Heq). exists (S n). split; [simpl; lia|].
      simpl. by rewrite E, Heq.
    + exists O. split; [lia|]. simpl. rewrite E. f_equal.
      clear IH Hs. induction Hb as [|b' bs Hb' _ IHb]; [done|].
      simpl. rewrite (leb_false_mono b b' x Hb' E). by f_equal.
Qed.

Lemma boundaries_sorted :
  StronglySorted (fun a b => (a <=? b)%float = true) App.boundaries.
Proof.
  unfold App.boundaries.
  repeat (constructor; [|repeat constructor; reflexivity]).
  constructor.
Qed.

(** The bucket with lower boundary [lo] holds the prices of its
    range. *)
Lemma in_bucket_range (t : Transaction) (i : nat) (lab : string)
    (lo hi : float) :
  ranged !! i = Some (lab, lo, hi) ->
  Mongo.in_bucket App.boundaries (Some lo) t = Spec.price_in lo hi t.
Proof.
  intros Hi.
  destruct (thresholds App.boundaries (price t) boundaries_sorted)
    as (n & Hn & Heq).
  unfold App.boundaries in Heq. cbn [map length] in Heq.
  unfold Mongo.in_bucket, Spec.price_in, App.boundaries.
  cbn [Mongo.bucket_of].
  do 11 (destruct n as [|n];
         [cbn [replicate app Nat.sub] in Heq;
          injection Heq as E0 E1 E2 E3 E4 E5 E6 E7 E8 E9;
          do 9 (destruct i as [|i];
                [cbn in Hi; injection Hi as <- <- <-;
                 rewrite ?E0, ?E1, ?E2, ?E3, ?E4, ?E5, ?E6, ?E7, ?E8, ?E9;
                 reflexivity|]);
          discriminate Hi|]).
  simpl in Hn. lia.
Qed.

Lemma bucket_all (docs : list Transaction) :
  Mongo.bucket App.boundaries "901-above" docs
  = List.filter Mongo.nonempty (all_buckets docs).
Proof. reflexivity. Qed.

Lemma filter_nonempty_prefix {K : Type} (l : list (Mongo.counted K)) (k : nat) :
  Forall (fun c => (0 < Mongo.count c)%nat) (take k l) ->
  exists rest, List.filter Mongo.nonempty l = take k l ++ rest.
Proof.
  revert l. induction k as [|k IH]; intros l Hpos.
  - by eexists.
  - destruct l as [|c l]; [by exists []|].
    cbn [take] in Hpos. inversion Hpos as [|? ? Hc Hl]; subst.
    destruct (IH l Hl) as [rest Hrest]. exists rest.
    cbn [List.filter take]. unfold Mongo.nonempty at 1.
    destruct (Nat.eqb_spec (Mongo.count c) 0); [lia|]. simpl. by rewrite Hrest.
Qed.

(** Entry by entry: the label, the bounds and the document of the
    bucket. *)
Lemma ranged_lookup (docs : list Transaction) (i : nat) :
  (i < 9)%nat ->
  exists lab lo hi,
    ranged !! i = Some (lab, lo, hi)
    /\ all_buckets docs !! i
       = Some (Mongo.mkCounted (Mongo.Lower lo)
                 (length (filter
                    (fun t => Mongo.in_bucket App.boundaries (Some lo) t) docs)))
    /\ App.result_template !! i = Some (Bar.mk lab 0).
Proof.
  intros Hi.
  do 9 (destruct i as [|i]; [by eexists _, _, _|]). lia.
Qed.

Lemma tally_range (docs : list Transaction) (i : nat) (lab : string)
    (lo hi : float) :
  ranged !! i = Some (lab, lo, hi) ->
  length (filter (fun t => Mongo.in_bucket App.boundaries (Some lo) t) docs)
  = length (filter (fun t => Spec.price_in lo hi t) docs).
Proof.
  intros Hi. f_equal. apply list_filter_iff. intros t.
  by rewrite (in_bucket_range t i lab lo hi Hi).
Qed.

(** X9: the entries below the first empty range are right: when each
    of the first k ranges has a record of the month, each of the first
    k entries shows, under its label, the number of month-m records
    priced in its range. *)
Theorem bar_chart_right_below_gap (docs : list Transaction) (q : Req.query)
    (m : Z) (k : nat) :
  JS.parseInt_param (Req.month q) = Some m ->
  (k <= 9)%nat ->
  (forall i lab lo hi, (i < k)%nat -> ranged !! i = Some (lab, lo, hi) ->
     exists t, t ∈ Spec.month_records m docs /\ Spec.price_in lo hi t = true) ->
  exists result,
    App.api_bar_chart docs q = Json result
    /\ forall i lab lo hi, (i < k)%nat -> ranged !! i = Some (lab, lo, hi) ->
         result !! i
         = Some (Bar.mk lab
                   (length (filter (fun t => Spec.price_in lo hi t)
                              (Spec.month_records m docs)))).
Proof.
  intros Hm Hk Hfull. rewrite bar_chart_overlay, Hm, match_month_records.
  set (l := Spec.month_records m docs) in *.
  eexists. split; [reflexivity|].
  assert (Hpos : Forall (fun c => (0 < Mongo.count c)%nat)
                   (take k (all_buckets l))).
  { apply Forall_lookup. intros j c Hj.
    apply lookup_take_Some in Hj as [Hj Hjk].
    destruct (ranged_lookup l j ltac:(lia)) as (lab & lo & hi & Hr & Ha & _).
    rewrite Ha in Hj. injection Hj as <-. simpl.
    rewrite (tally_range l j lab lo hi Hr).
    destruct (Hfull j lab lo hi Hjk Hr) as (t & Ht & Hin).
    assert (Hmem : t ∈ filter (fun t => Spec.price_in lo hi t) l).
    { apply list_elem_of_filter. split; [by rewrite Is_true_true | done]. }
    apply list_elem_of_lookup in Hmem as [n Hn]. apply lookup_lt_Some in Hn. lia. }
  destruct (filter_nonempty_prefix (all_buckets l) k Hpos) as [rest Hrest].
  intros i lab lo hi Hi Hr.
  destruct (ranged_lookup l i ltac:(lia)) as (lab' & lo' & hi' & Hr' & Ha & Ht).
  rewrite Hr in Hr'. injection Hr' as <- <- <-.
  rewrite bucket_all, Hrest.
  assert (Hitem : (take k (all_buckets l) ++ rest) !! i = all_buckets l !! i).
  { rewrite lookup_app_l by (rewrite length_take; simpl; lia).
    by rewrite lookup_take_lt. }
  rewrite Ha in Hitem.
  rewrite (overlay_lookup_lt _ _ i _ _ Hitem Ht).
  simpl. by rewrite (tally_range l i lab lo hi Hr).
Qed.

Lemma bar_chart_right_below_gap_witness :
  exists result,
    App.api_bar_chart Samples.scenario (Req.mk (Some "3"%string) None None None)
    = Json result
    /\ result !! 0%nat = Some (Bar.mk "0 - 100" 1)
    /\ result !! 1%nat = Some (Bar.mk "101 - 200" 1).
Proof.
  destruct (bar_chart_right_below_gap Samples.scenario
              (Req.mk (Some "3"%string) None None None) 3 2)
    as (result & Hr & Hentries); [reflexivity | lia | |].
  - intros [|[|i]] lab lo hi Hi Hl; [| |lia]; injection Hl as <- <- <-.
    + exists (Samples.record 1 "lamp" 50 "home" true 3).
      split; [vm_compute; left | reflexivity].
    + exists (Samples.record 2 "desk" 150 "home" false 3).
      split; [vm_compute; right; left | reflexivity].
  - exists result. split; [exact Hr|]. split.
    + by rewrite (Hentries 0%nat "0 - 100"%string 0%float 101%float
                    ltac:(lia) eq_refl).
    + by rewrite (Hentries 1%nat "101 - 200"%string 101%float 201%float
                    ltac:(lia) eq_refl).
Defined.

(** The default bucket holds the prices outside [0, 901). *)
Lemma in_bucket_default (t : Transaction) :
  Mongo.in_bucket App.boundaries None t = negb (Spec.price_in 0 901 t).
Proof.
  destruct (thresholds App.boundaries (price t) boundaries_sorted)
    as (n & Hn & Heq).
  unfold App.boundaries in Heq. cbn [map length] in Heq.
  unfold Mongo.in_bucket, Spec.price_in, App.boundaries.
  cbn [Mongo.bucket_of].
  do 11 (destruct n as [|n];
         [cbn [replicate app Nat.sub] in Heq;
          injection Heq as E0 E1 E2 E3 E4 E5 E6 E7 E8 E9;
          rewrite ?E0, ?E1, ?E2, ?E3, ?E4, ?E5, ?E6, ?E7, ?E8, ?E9;
          reflexivity|]).
  simpl in Hn. lia.
Qed.

(** The documents of the ten buckets count the records of the ten
    ranges. *)
Lemma all_buckets_counts (l : list Transaction) :
  Mongo.count <$> all_buckets l = range_counts l.
Proof.
  unfold all_buckets, range_counts. rewrite fmap_app. f_equal.
  - change (Mongo.lowers App.boundaries)
      with [0; 101; 201; 301; 401; 501; 601; 701; 801]%float.
    unfold ranged. cbn [map fmap list_fmap Mongo.count fst snd].
    rewrite (tally_range l 0 _ _ _ eq_refl), (tally_range l 1 _ _ _ eq_refl),
      (tally_range l 2 _ _ _ eq_refl), (tally_range l 3 _ _ _ eq_refl),
      (tally_range l 4 _ _ _ eq_refl), (tally_range l 5 _ _ _ eq_refl),
      (tally_range l 6 _ _ _ eq_refl), (tally_range l 7 _ _ _ eq_refl),
      (tally_range l 8 _ _ _ eq_refl).
    reflexivity.
  - cbn [fmap list_fmap Mongo.count]. do 2 f_equal.
    apply list_filter_iff. intros t. by rewrite in_bucket_default.
Qed.

Lemma counts_filter_nonempty {K : Type} (cs : list (Mongo.counted K)) :
  Mongo.count <$> List.filter Mongo.nonempty cs
  = positive_counts (Mongo.count <$> cs).
Proof.
  unfold positive_counts. induction cs as [|c cs IH]; [done|].
  cbn [List.filter fmap list_fmap]. unfold Mongo.nonempty at 1.
  destruct (Nat.eqb (Mongo.count c) 0); cbn [negb]; [exact IH|].
  cbn [fmap list_fmap]. f_equal. exact IH.
Qed.

(** The counts of the entries after the remap: those of the items, then
    the zeros of the entries that no item reached. *)
Lemma overlay_counts (items : list (Mongo.counted Mongo.bucket_id))
    (entries : list Bar.t) :
  Forall (fun b => Bar.count b = O) entries ->
  (length items <= length entries)%nat ->
  Bar.count <$> overlay items entries
  = (Mongo.count <$> items) ++ replicate (length entries - length items) O.
Proof.
  revert entries. induction items as [|item items IH]; intros entries Hz Hlen.
  - replace (overlay [] entries) with entries by (by destruct entries).
    cbn [fmap list_fmap app length]. rewrite Nat.sub_0_r. clear Hlen.
    induction Hz as [|b bs Hb _ IHz]; [done|].
    cbn [fmap list_fmap length replicate]. by rewrite Hb, IHz.
  - destruct entries as [|b entries]; [simpl in Hlen; lia|].
    inversion Hz as [|? ? _ Hz']; subst. cbn [overlay fmap list_fmap length].
    cbn [Bar.count app Nat.sub]. f_equal. apply IH; [done | simpl in Hlen; lia].
Qed.

(** X8: the counts of the body are the counts of the ranges that hold a
    record of the month, in the order of the ranges and one after the
    other from the first entry on, followed by zeros: the number of the
    positive entries is the number of the ranges with a record, and no 0
    comes before a positive count. *)
Theorem bar_chart_packed (docs : list Transaction) (q : Req.query) (m : Z) :
  JS.parseInt_param (Req.month q) = Some m ->
  exists result,
    App.api_bar_chart docs q = Json result
    /\ Bar.count <$> result
       = positive_counts (range_counts (Spec.month_records m docs))
         ++ replicate
              (10 - length (positive_counts
                              (range_counts (Spec.month_records m docs)))) O.
Proof.
  intros Hm. rewrite bar_chart_overlay, Hm, match_month_records.
  set (l := Spec.month_records m docs).
  eexists. split; [reflexivity|].
  rewrite overlay_counts.
  - rewrite bucket_all, counts_filter_nonempty, all_buckets_counts.
    f_equal. f_equal. change (length App.result_template) with 10%nat. f_equal.
    by rewrite <- (all_buckets_counts l), <- counts_filter_nonempty,
      length_fmap.
  - unfold App.result_template. repeat constructor.
  - apply bucket_length.
Qed.

(** One record of March priced 150: the ranges hold 0, 1, 0, ... records
    and the body shows 1, 0, 0, ... *)
Lemma bar_chart_packed_witness :
  exists result,
    App.api_bar_chart Samples.single (Req.mk (Some "3"%string) None None None)
    = Json result
    /\ range_counts (Spec.month_records 3 Samples.single)
       = [0; 1; 0; 0; 0; 0; 0; 0; 0; 0]%nat
    /\ Bar.count <$> result = [1; 0; 0; 0; 0; 0; 0; 0; 0; 0]%nat.
Proof.
  destruct (bar_chart_packed Samples.single
              (Req.mk (Some "3"%string) None None None) 3 ltac:(reflexivity))
    as (result & Hr & Hcounts).
  exists result. split; [exact Hr|]. split; [vm_compute; reflexivity|].
  rewrite Hcounts. vm_compute. reflexivity.
Defined.

(** ** The category breakdown adds up *)

Lemma group_values_total (docs : list Transaction) :
  sum_list_with snd (map_to_list (Mongo.group_category docs)) = length docs.
Proof.
  induction docs as [|t docs IH].
  - unfold Mongo.group_category. simpl. by rewrite map_to_list_empty.
  - cbn [Mongo.group_category foldr]. fold (Mongo.group_category docs).
    destruct (Mongo.group_category docs !! category t) as [v|] eqn:E.
    + rewrite <- insert_delete_eq.
      rewrite map_to_list_insert by apply lookup_delete_eq.
      cbn [sum_list_with snd length].
      rewrite <- IH, <- (map_to_list_delete _ _ _ E). simpl. lia.
    + rewrite map_to_list_insert by done. simpl. by rewrite IH.
Qed.

Lemma group_docs_total (g : gmap string nat) :
  sum_list (Mongo.count <$> Mongo.group_docs g)
  = sum_list_with snd (map_to_list g).
Proof.
  unfold Mongo.group_docs. induction (map_to_list g) as [|kc l IH]; [done|].
  cbn [fmap list_fmap sum_list_with snd Mongo.count]. f_equal. exact IH.
Qed.

(** X10: the counts of /api/pie-chart add up to the number of records
    whose dateOfSale is of calendar month m. *)
Theorem pie_chart_counts_total (docs : list Transaction) (q : Req.query)
    (m : Z) :
  JS.parseInt_param (Req.month q) = Some m ->
  exists pie,
    App.api_pie_chart docs q = Json pie
    /\ sum_list (Mongo.count <$> pie) = length (Spec.month_records m docs).
Proof.
  intros Hm. unfold App.api_pie_chart. cbn zeta.
  rewrite Hm, match_month_records. eexists. split; [reflexivity|].
  by rewrite group_docs_total, group_values_total.
Qed.

Lemma pie_chart_counts_total_witness :
  exists pie,
    App.api_pie_chart Samples.scenario (Req.mk (Some "3"%string) None None None)
    = Json pie
    /\ sum_list (Mongo.count <$> pie) = 2%nat.
Proof.
  destruct (pie_chart_counts_total Samples.scenario
              (Req.mk (Some "3"%string) None None None) 3 ltac:(reflexivity))
    as (pie & Hp & Hsum).
  exists pie. split; [exact Hp | rewrite Hsum; reflexivity].
Defined.

(** ** A month that is not a number *)

Lemma bar_chart_no_records (q : Req.query) :
  forall docs, Mongo.match_month (JS.parseInt_param (Req.month q)) docs = [] ->
  App.api_bar_chart docs q = Json App.result_template.
Proof.
  intros docs H. unfold App.api_bar_chart. cbn zeta. by rewrite H.
Qed.

Lemma pie_chart_no_records (q : Req.query) :
  forall docs, Mongo.match_month (JS.parseInt_param (Req.month q)) docs = [] ->
  App.api_pie_chart docs q = Json [].
Proof.
  intros docs H. unfold App.api_pie_chart. cbn zeta. rewrite H.
  unfold Mongo.group_docs, Mongo.group_category. simpl.
  by rewrite map_to_list_empty.
Qed.

(** X11: when the month parameter is absent or does not begin with a
    number, no record is selected: the statistics are the zeros, the
    histogram is the ten entries with count 0 and the category
    breakdown is empty; none of the three answers 500. *)
Theorem month_not_a_number (docs : list Transaction) (q : Req.query) :
  JS.parseInt_param (Req.month q) = None ->
  App.api_statistics docs q = Json (Statistics.mk false 0 0 0)
  /\ App.api_bar_chart docs q = Json App.result_template
  /\ App.api_pie_chart docs q = Json [].
Proof.
  intros H. split; [by apply statistics_no_month|].
  split; [apply bar_chart_no_records | apply pie_chart_no_records];
    by rewrite H, match_month_NaN.
Qed.

Lemma month_not_a_number_witness :
  App.api_statistics Samples.scenario (Req.mk (Some "March"%string) None None None)
  = Json (Statistics.mk false 0 0 0)
  /\ App.api_bar_chart Samples.scenario (Req.mk None None None None)
     = Json App.result_template.
Proof.
  split.
  - apply (month_not_a_number Samples.scenario
             (Req.mk (Some "March"%string) None None None)). reflexivity.
  - apply (month_not_a_number Samples.scenario (Req.mk None None None None)).
    reflexivity.
Defined.

(** ** The combined view at its edges *)

Lemma filter_none (p : Transaction -> bool) (docs : list Transaction) :
  (forall t, p t = false) -> filter (fun t => p t) docs = [].
Proof.
  intros H. induction docs as [|t docs IH]; [done|].
  rewrite filter_cons, decide_False; [exact IH|]. rewrite H. simpl. tauto.
Qed.

Lemma filter_all (p : Transaction -> bool) (docs : list Transaction) :
  (forall t, p t = true) -> filter (fun t => p t) docs = docs.
Proof.
  intros H. induction docs as [|t docs IH]; [done|].
  rewrite filter_cons, decide_True; [by rewrite IH|]. rewrite H. simpl. tauto.
Qed.

(** X12: /api/combined-data without a month asks the four routes for
    the month "undefined": its listing is empty with total 0 and its
    three views are empty, whereas /api/transactions without a month
    lists the whole collection. *)
Theorem combined_without_month (docs : list Transaction)
    (search : option string) (page perPage : option Z) :
  App.api_combined_data docs (Req.mk None search page perPage)
  = Some (Json (Combined.mk
                  (Json (Listing.mk [] 0 1 10 (Some 0)))
                  (Json (Statistics.mk false 0 0 0))
                  (Json App.result_template)
                  (Json [])))
  /\ App.api_transactions docs (Req.mk None None None None)
     = Some (Json (Listing.mk (take 10 docs) (length docs) 1 10
                     (JS.ceil_div (Z.of_nat (length docs)) 10))).
Proof.
  split.
  - unfold App.api_combined_data. cbn [Req.month].
    change (App.interpolated None) with (Some (Some "undefined"%string)).
    cbn iota beta zeta.
    rewrite (statistics_no_month docs
               (Req.mk (Some "undefined"%string) None None None) eq_refl).
    rewrite (bar_chart_no_records
               (Req.mk (Some "undefined"%string) None None None) docs)
      by apply match_month_NaN.
    rewrite (pie_chart_no_records
               (Req.mk (Some "undefined"%string) None None None) docs)
      by apply match_month_NaN.
    rewrite (listing_body docs (Some "undefined"%string) None None None
               (Mongo.expr_holds
                  (App.build_query (Some "undefined"%string) None)))
      by (done || (simpl; lia)).
    rewrite filter_none by done. reflexivity.
  - rewrite (listing_body docs None None None None
               (Mongo.expr_holds (App.build_query None None)))
      by (done || (simpl; lia)).
    rewrite filter_all by done. reflexivity.
Qed.

(** X13: /api/combined-data with an empty month: the listing takes the
    empty text for no month and lists the whole collection, while the
    three views read it as no number and are empty. *)
Theorem combined_empty_month (docs : list Transaction)
    (search : option string) (page perPage : option Z) :
  App.api_combined_data docs (Req.mk (Some ""%string) search page perPage)
  = Some (Json (Combined.mk
                  (Json (Listing.mk (take 10 docs) (length docs) 1 10
                           (JS.ceil_div (Z.of_nat (length docs)) 10)))
                  (Json (Statistics.mk false 0 0 0))
                  (Json App.result_template)
                  (Json []))).
Proof.
  unfold App.api_combined_data. cbn [Req.month].
  change (App.interpolated (Some ""%string)) with (Some (Some ""%string)).
  cbn iota beta zeta.
  rewrite (statistics_no_month docs
             (Req.mk (Some ""%string) None None None) eq_refl).
  rewrite (bar_chart_no_records (Req.mk (Some ""%string) None None None) docs)
    by apply match_month_NaN.
  rewrite (pie_chart_no_records (Req.mk (Some ""%string) None None None) docs)
    by apply match_month_NaN.
  rewrite (listing_body docs (Some ""%string) None None None
             (Mongo.expr_holds (App.build_query (Some ""%string) None)))
    by (done || (simpl; lia)).
  rewrite filter_all by done. reflexivity.
Qed.

Lemma overlay_counts_total (l : list Transaction) :
  sum_list (Bar.count <$>
              overlay (Mongo.bucket App.boundaries "901-above" l)
                App.result_template)
  = length l.
Proof.
  change (counts (overlay (Mongo.bucket App.boundaries "901-above" l)
                    App.result_template) = length l).
  rewrite counts_overlay.
  - apply bucket_tallies.
  - apply bucket_length.
  - unfold App.result_template. repeat constructor.
Qed.

(** X14: for a month text that the URL of the four requests carries as
    it is (letters, digits and - . _ ~ only) and that reads as m, the
    four parts of /api/combined-data speak of the same records: the total
    of the listing, the sold and not sold counts together, the counts of
    the histogram and the counts of the categories all add up to the
    number of records of month m. *)
Theorem combined_views_agree (docs : list Transaction) (month : string)
    (search : option string) (page perPage : option Z) (m : Z) :
  JS.parseInt month = Some m -> App.url_plain month = true ->
  exists c l s bars pie,
    App.api_combined_data docs (Req.mk (Some month) search page perPage)
    = Some (Json c)
    /\ Combined.transactions c = Json l
    /\ Combined.statistics c = Json s
    /\ Combined.barChart c = Json bars
    /\ Combined.pieChart c = Json pie
    /\ Listing.total l = length (Spec.month_records m docs)
    /\ (Statistics.totalSoldItems s + Statistics.totalNotSoldItems s)%nat
       = length (Spec.month_records m docs)
    /\ sum_list (Bar.count <$> bars) = length (Spec.month_records m docs)
    /\ sum_list (Mongo.count <$> pie) = length (Spec.month_records m docs).
Proof.
  intros Hm Hplain.
  destruct (prepare_plain (Some month) None (Some m)) as (p & Hp & Hsat).
  { by constructor. }
  { intros s [=]. }
  assert (Hf : filter (fun t => p t) docs = Spec.month_records m docs).
  { apply list_filter_iff. intros t. rewrite Hsat. unfold Spec.satisfies.
    rewrite andb_true_r, Is_true_true. apply Z.eqb_eq. }
  pose (request := Req.mk (Some month) None None None).
  assert (Hparse : JS.parseInt_param (Req.month request) = Some m) by exact Hm.
  destruct (statistics_body docs request) as (s & Hs & _ & Hsold & Hnot & _).
  rewrite Hparse, match_month_records in Hsold, Hnot.
  unfold App.api_combined_data, App.interpolated.
  cbn [Req.month default from_option id]. rewrite Hplain. cbn zeta.
  unfold request in Hs, Hparse.
  rewrite (listing_body docs (Some month) None None None p Hp) by (simpl; lia).
  rewrite Hs, bar_chart_overlay. unfold App.api_pie_chart. cbn zeta.
  rewrite Hparse, match_month_records.
  eexists _, _, _, _, _. split; [reflexivity|].
  cbn [Combined.transactions Combined.statistics Combined.barChart
       Combined.pieChart Listing.total].
  do 4 (split; [reflexivity|]).
  split; [by rewrite Hf|]. split; [rewrite Hsold, Hnot; apply sold_or_not|].
  split; [apply overlay_counts_total|].
  by rewrite group_docs_total, group_values_total.
Qed.

Lemma combined_views_agree_witness :
  exists c l s,
    App.api_combined_data Samples.scenario
      (Req.mk (Some "3"%string) None None None) = Some (Json c)
    /\ Combined.transactions c = Json l
    /\ Combined.statistics c = Json s
    /\ Listing.total l = 2%nat
    /\ (Statistics.totalSoldItems s + Statistics.totalNotSoldItems s = 2)%nat.
Proof.
  destruct (combined_views_agree Samples.scenario "3" None None None 3)
    as (c & l & s & bars & pie & Hc & Hl & Hs & _ & _ & Ht & Hst & _);
    [reflexivity..|].
  exists c, l, s. repeat split; [exact Hc | exact Hl | exact Hs | |].
  - rewrite Ht. reflexivity.
  - rewrite Hst. reflexivity.
Defined.

(** ** Reloading the store, further *)

(** X15: a reload that succeeds leaves exactly the fetched documents,
    whatever the store held, so that a second reload of the same data
    changes nothing in the collection. *)
Theorem initialize_idempotent (l : list Transaction) (st : App.state) :
  let w := App.Body (Some (App.Documents l)) in
  let (st1, r1) := App.api_initialize App.Resolves w st in
  let (st2, r2) := App.api_initialize App.Resolves w st1 in
  App.docs st1 = l
  /\ r1 = Some (Json "Database initialized successfully"%string)
  /\ App.docs st2 = App.docs st1
  /\ r2 = r1.
Proof.
  cbn zeta. rewrite initialize_replaces. rewrite initialize_replaces.
  by cbn [App.docs].
Qed.

(** X16: when the body parses but the store refuses the documents, the
    old records are already deleted: the answer is 500 and the
    collection is left empty. *)
Theorem initialize_rejected_data_empties (st : App.state) :
  App.api_initialize App.Resolves (App.Body (Some App.Uncastable)) st
  = (App.mkState [] (App.journal st ++ [App.DeleteMany; App.InsertMany]),
     Some (Status500 "Failed to initialize database")).
Proof. cbv -[app]. by rewrite <- app_assoc. Qed.

(** X24: the store is written only after the body has been parsed, and
    insertMany is issued only after a deleteMany that was carried out.
    A run issues no operation, when the fetch or the parsing failed; or
    deleteMany alone, when that is rejected: the catch answers 500 and
    the records are kept; or deleteMany and then insertMany, never
    insertMany first or alone. *)
Theorem initialize_operations (d : App.deletion) (w : App.fetched)
    (st : App.state) :
  let (st', r) := App.api_initialize d w st in
  ((forall data, w <> App.Body (Some data))
   /\ st' = st
   /\ r = Some (Status500 "Failed to initialize database"))
  \/ ((exists data, w = App.Body (Some data))
      /\ d = App.Rejects
      /\ st' = App.mkState (App.docs st) (App.journal st ++ [App.DeleteMany])
      /\ r = Some (Status500 "Failed to initialize database"))
  \/ ((exists data, w = App.Body (Some data))
      /\ d = App.Resolves
      /\ App.journal st' = App.journal st ++ [App.DeleteMany; App.InsertMany]).
Proof.
  destruct d, w as [|[[l|]|]]; cbv -[app]; rewrite <- ?app_assoc;
    try (left; repeat split; discriminate).
  - right. right. split; [by eexists|]. by repeat split.
  - right. right. split; [by eexists|]. by repeat split.
  - right. left. split; [by eexists|]. by repeat split.
  - right. left. split; [by eexists|]. by repeat split.
Qed.

(** * The dashboard *)

(** ** Numbers in the URL *)

Lemma digit_char_digit (k : Z) :
  0 <= k <= 9 -> JS.digit 10 (Dashboard.digit_char k) = Some k.
Proof.
  intros Hk.
  assert (H : k = 0 \/ k = 1 \/ k = 2 \/ k = 3 \/ k = 4 \/ k = 5 \/ k = 6
              \/ k = 7 \/ k = 8 \/ k = 9) by lia.
  repeat (destruct H as [->|H]; [reflexivity|]). by subst.
Qed.

Lemma digits_of_S (fuel : nat) (n : Z) (acc : string) :
  Dashboard.digits_of (S fuel) n acc
  = if n <? 10 then String (Dashboard.digit_char (n mod 10)) acc
    else Dashboard.digits_of fuel (n / 10)
           (String (Dashboard.digit_char (n mod 10)) acc).
Proof. reflexivity. Qed.

(** Reading the digits of [n] gives [n] back. *)
Lemma digits_of_read (fuel : nat) (n : Z) (acc : string) :
  0 <= n < 10 ^ Z.of_nat (S fuel) ->
  JS.digits_prefix 10 (Dashboard.digits_of (S fuel) n acc) None
  = JS.digits_prefix 10 acc (Some n).
Proof.
  revert n acc. induction fuel as [|fuel IH]; intros n acc Hn.
  - rewrite digits_of_S. change (10 ^ Z.of_nat 1) with 10 in Hn.
    rewrite (proj2 (Z.ltb_lt _ _)) by lia. cbn [JS.digits_prefix].
    rewrite Z.mod_small by lia. rewrite digit_char_digit by lia.
    cbn [default from_option id]. repeat f_equal; try lia.
  - rewrite digits_of_S. destruct (Z.ltb_spec n 10) as [Hlt|Hge].
    + cbn [JS.digits_prefix]. rewrite Z.mod_small by lia.
      rewrite digit_char_digit by lia. cbn [default from_option id].
      repeat f_equal; try lia.
    + rewrite IH.
      * cbn [JS.digits_prefix].
        rewrite digit_char_digit by (pose proof (Z.mod_pos_bound n 10); lia).
        cbn [default from_option id]. do 2 f_equal.
        pose proof (Z.div_mod n 10 ltac:(lia)). lia.
      * rewrite Nat2Z.inj_succ, Z.pow_succ_r in Hn by lia.
        split; [apply Z.div_pos; lia|].
        apply Z.div_lt_upper_bound; lia.
Qed.

Lemma digit_char_decimal (n : Z) :
  is_decimal (Dashboard.digit_char (n mod 10)) = true.
Proof.
  pose proof (Z.mod_pos_bound n 10 ltac:(lia)) as Hk.
  assert (H : n mod 10 = 0 \/ n mod 10 = 1 \/ n mod 10 = 2 \/ n mod 10 = 3
              \/ n mod 10 = 4 \/ n mod 10 = 5 \/ n mod 10 = 6 \/ n mod 10 = 7
              \/ n mod 10 = 8 \/ n mod 10 = 9) by lia.
  repeat (destruct H as [->|H]; [reflexivity|]). by rewrite H.
Qed.

Lemma digits_of_decimal (fuel : nat) (n : Z) (acc : string) :
  all_decimal acc = true ->
  all_decimal (Dashboard.digits_of fuel n acc) = true.
Proof.
  revert n acc. induction fuel as [|fuel IH]; intros n acc Hacc; [done|].
  rewrite digits_of_S.
  assert (Hcons : all_decimal (String (Dashboard.digit_char (n mod 10)) acc)
                  = true).
  { unfold all_decimal. cbn [list_ascii_of_string forallb].
    by rewrite digit_char_decimal. }
  destruct (n <? 10); [exact Hcons | by apply IH].
Qed.

Lemma digits_of_nonempty (fuel : nat) (n : Z) (acc : string) :
  exists c s, Dashboard.digits_of (S fuel) n acc = String c s.
Proof.
  revert n acc. induction fuel as [|fuel IH]; intros n acc; rewrite digits_of_S.
  - destruct (n <? 10); by eexists _, _.
  - destruct (n <? 10); [by eexists _, _ | apply IH].
Qed.

(** On a text of decimal digits [parseInt] reads all of it, in base
    10. *)
Lemma parseInt_decimal (c : ascii) (s : string) :
  all_decimal (String c s) = true ->
  JS.parseInt (String c s) = JS.digits_prefix 10 (String c s) None.
Proof.
  unfold all_decimal. cbn [list_ascii_of_string forallb].
  intros [Hc Hs]%andb_prop.
  destruct c as [[] [] [] [] [] [] [] []]; vm_compute in Hc; try discriminate Hc;
    try (unfold JS.parseInt; simpl;
         match goal with |- context [JS.digits_prefix ?r ?t ?a] =>
           by destruct (JS.digits_prefix r t a) end).
  destruct s as [|c2 s2]; [reflexivity|].
  cbn [list_ascii_of_string forallb] in Hs. apply andb_prop in Hs as [Hc2 _].
  destruct c2 as [[] [] [] [] [] [] [] []]; vm_compute in Hc2;
    try discriminate Hc2;
    unfold JS.parseInt; simpl;
    match goal with |- context [JS.digits_prefix ?r ?t ?a] =>
      by destruct (JS.digits_prefix r t a) end.
Qed.

(** The number that the dashboard writes into a URL is the number that
    [parseInt] reads on the server. *)
Lemma template_parseInt (n : Z) :
  0 <= n < 10 ^ 21 -> JS.parseInt (Dashboard.template n) = Some n.
Proof.
  intros Hn. unfold Dashboard.template.
  destruct (digits_of_nonempty 20 n "") as (c & s & Hcs).
  pose proof (digits_of_decimal 21 n "" eq_refl) as Hdec.
  rewrite Hcs in Hdec. rewrite Hcs, (parseInt_decimal c s Hdec), <- Hcs.
  by rewrite digits_of_read.
Qed.

(** ** The listing in the dashboard *)

Lemma listing_json_inv (docs : list Transaction) (month search : option string)
    (page perPage : option Z) (r : Listing.t) :
  App.api_transactions docs (Req.mk month search page perPage) = Some (Json r) ->
  exists p,
    Mongo.prepare (App.build_query month search) = Mongo.Predicate p
    /\ 0 <= (default 1 page - 1) * default 10 perPage.
Proof.
  unfold App.api_transactions, Mongo.find.
  cbn [Req.month Req.search Req.page Req.perPage].
  destruct (Mongo.prepare (App.build_query month search)) as [p| |];
    [|discriminate..].
  destruct (Z.ltb_spec ((default 1 page - 1) * default 10 perPage) 0);
    [discriminate|].
  intros _. by exists p.
Qed.

(** What [fetchTransactions] stores when the server answers with a
    listing. *)
Lemma fetch_listing (docs : list Transaction) (st st' : Dashboard.state)
    (page tp : Z) :
  Dashboard.fetchTransactions docs st page = Some st' ->
  Dashboard.totalPages st' = Some tp ->
  exists p,
    Mongo.prepare
      (App.build_query (Some (Dashboard.template (Dashboard.selectedMonth st)))
         (Some (Dashboard.searchQuery st)))
    = Mongo.Predicate p
    /\ Dashboard.query_safe (Dashboard.searchQuery st) = true
    /\ 1 <= page
    /\ JS.ceil_div (Z.of_nat (length (filter (fun t => p t) docs))) 10 = Some tp
    /\ st' = Dashboard.mkState
               (Some (take 10 (drop (Z.to_nat ((page - 1) * 10))
                                 (filter (fun t => p t) docs))))
               page (Some tp) (Dashboard.searchQuery st)
               (Dashboard.selectedMonth st) (Dashboard.statistics st)
               (Dashboard.barChartData st).
Proof.
  unfold Dashboard.fetchTransactions, Dashboard.listing_request.
  destruct (Dashboard.query_safe (Dashboard.searchQuery st)) eqn:Hsafe;
    [|discriminate].
  destruct (App.api_transactions docs _) as [[data|e]|] eqn:Hapi;
    [| |discriminate].
  - destruct (listing_json_inv _ _ _ _ _ _ Hapi) as (p & Hp & Hskip).
    cbn [default from_option id] in Hskip.
    rewrite (listing_body _ _ _ _ _ p Hp) in Hapi by exact Hskip.
    injection Hapi as <-.
    cbn [Listing.totalPages Listing.transactions default from_option id].
    destruct (JS.ceil_div _ 10) as [tp'|] eqn:Hceil; [|discriminate].
    intros [= <-]. cbn [Dashboard.totalPages]. intros [= ->].
    exists p. rewrite limit_take by lia.
    repeat split; [exact Hp | lia | exact Hceil].
  - intros [= <-]. discriminate.
Qed.

Lemma ceil_div_bounds (total tp : Z) :
  JS.ceil_div total 10 = Some tp -> (tp - 1) * 10 < total <= tp * 10.
Proof.
  intros H. destruct (ceil_div_spec total 10 ltac:(lia)) as (tp' & H' & Hb).
  rewrite H in H'. by injection H' as ->.
Qed.

(** X17: [handlePageChange] keeps the page between 1 and totalPages: a
    request in that range becomes the current page, any other request
    leaves the state as it is. *)
Theorem page_change_in_range (st : Dashboard.state) (newPage tp : Z) :
  Dashboard.totalPages st = Some tp ->
  1 <= Dashboard.currentPage st <= tp ->
  let st' := Dashboard.handlePageChange st newPage in
  1 <= Dashboard.currentPage st' <= tp
  /\ Dashboard.totalPages st' = Some tp
  /\ (1 <= newPage <= tp -> Dashboard.currentPage st' = newPage)
  /\ (~ 1 <= newPage <= tp -> st' = st).
Proof.
  intros Htp Hin. cbn zeta. unfold Dashboard.handlePageChange. rewrite Htp.
  destruct (Z.leb_spec 1 newPage), (Z.leb_spec newPage tp); simpl;
    repeat split; try done; try lia.
Qed.

Lemma page_change_in_range_witness :
  Dashboard.currentPage
    (Dashboard.handlePageChange
       (Dashboard.mkState (Some []) 2 (Some 3) "" 3
          (Json (Statistics.mk false 0 0 0)) (Json [])) 4) = 2
  /\ Dashboard.currentPage
       (Dashboard.handlePageChange
          (Dashboard.mkState (Some []) 2 (Some 3) "" 3
             (Json (Statistics.mk false 0 0 0)) (Json [])) 3) = 3.
Proof.
  split.
  - destruct (page_change_in_range
                (Dashboard.mkState (Some []) 2 (Some 3) "" 3
                   (Json (Statistics.mk false 0 0 0)) (Json [])) 4 3
                eq_refl ltac:(simpl; lia)) as (_ & _ & _ & Hout).
    rewrite Hout by lia. reflexivity.
  - destruct (page_change_in_range
                (Dashboard.mkState (Some []) 2 (Some 3) "" 3
                   (Json (Statistics.mk false 0 0 0)) (Json [])) 3 3
                eq_refl ltac:(simpl; lia)) as (_ & _ & Hin & _).
    apply Hin. lia.
Defined.

(** X18: on a page before the last, Next and then Previous come back to
    the same state; on a page after the first, so do Previous and then
    Next. *)
Theorem next_previous_round_trip (st : Dashboard.state) (tp : Z) :
  Dashboard.totalPages st = Some tp ->
  1 <= Dashboard.currentPage st <= tp ->
  (Dashboard.currentPage st < tp ->
   Dashboard.click_previous (Dashboard.click_next st) = st)
  /\ (1 < Dashboard.currentPage st ->
      Dashboard.click_next (Dashboard.click_previous st) = st).
Proof.
  destruct st as [rows cur total search month stats bars].
  cbn [Dashboard.totalPages Dashboard.currentPage]. intros -> Hin.
  unfold Dashboard.click_previous, Dashboard.click_next,
    Dashboard.previous_disabled, Dashboard.next_disabled,
    Dashboard.handlePageChange.
  split; intros Hlt.
  - cbn [Dashboard.totalPages Dashboard.currentPage].
    rewrite (proj2 (Z.eqb_neq cur tp)) by lia.
    rewrite (proj2 (Z.leb_le 1 (cur + 1))), (proj2 (Z.leb_le (cur + 1) tp)) by lia.
    cbn [andb Dashboard.totalPages Dashboard.currentPage].
    rewrite (proj2 (Z.eqb_neq (cur + 1) 1)) by lia.
    rewrite (proj2 (Z.leb_le 1 (cur + 1 - 1))),
      (proj2 (Z.leb_le (cur + 1 - 1) tp)) by lia.
    cbn [andb Dashboard.transactions Dashboard.searchQuery
         Dashboard.selectedMonth Dashboard.statistics Dashboard.barChartData
         Dashboard.totalPages].
    f_equal. lia.
  - cbn [Dashboard.totalPages Dashboard.currentPage].
    rewrite (proj2 (Z.eqb_neq cur 1)) by lia.
    rewrite (proj2 (Z.leb_le 1 (cur - 1))), (proj2 (Z.leb_le (cur - 1) tp)) by lia.
    cbn [andb Dashboard.totalPages Dashboard.currentPage].
    rewrite (proj2 (Z.eqb_neq (cur - 1) tp)) by lia.
    rewrite (proj2 (Z.leb_le 1 (cur - 1 + 1))),
      (proj2 (Z.leb_le (cur - 1 + 1) tp)) by lia.
    cbn [andb Dashboard.transactions Dashboard.searchQuery
         Dashboard.selectedMonth Dashboard.statistics Dashboard.barChartData
         Dashboard.totalPages].
    f_equal. lia.
Qed.

Lemma next_previous_round_trip_witness :
  let st := Dashboard.mkState (Some []) 2 (Some 3) "" 3
              (Json (Statistics.mk false 0 0 0)) (Json []) in
  Dashboard.click_previous (Dashboard.click_next st) = st
  /\ Dashboard.currentPage (Dashboard.click_next st) = 3.
Proof.
  intros st. split; [|reflexivity].
  apply (next_previous_round_trip st 3 eq_refl); simpl; lia.
Defined.

(** X19: when the listing has no match the dashboard holds page 1 of 0:
    Previous is disabled, Next is not, and a click on Next changes
    nothing. *)
Theorem no_match_next_inert (docs : list Transaction)
    (st st' : Dashboard.state) :
  Dashboard.fetchTransactions docs st 1 = Some st' ->
  Dashboard.transactions st' = Some [] ->
  Dashboard.totalPages st' = Some 0
  /\ Dashboard.previous_disabled st' = true
  /\ Dashboard.next_disabled st' = false
  /\ Dashboard.click_next st' = st'.
Proof.
  intros Hfetch Hrows.
  assert (Htp : exists tp, Dashboard.totalPages st' = Some tp).
  { destruct (Dashboard.totalPages st') as [tp|] eqn:E; [by exists tp|].
    unfold Dashboard.fetchTransactions in Hfetch.
    destruct (Dashboard.query_safe _); [|discriminate].
    destruct (App.api_transactions _ _) as [[data|e]|]; [| |discriminate].
    - destruct (Listing.totalPages data); [|discriminate].
      injection Hfetch as <-. discriminate.
    - injection Hfetch as <-. discriminate. }
  destruct Htp as [tp Htp].
  destruct (fetch_listing docs st st' 1 tp Hfetch Htp)
    as (p & _ & _ & _ & Hceil & ->).
  cbn [Dashboard.transactions] in Hrows. injection Hrows as Hrows.
  change (Z.to_nat ((1 - 1) * 10)) with O in Hrows. rewrite drop_0 in Hrows.
  assert (Hnil : filter (fun t => p t) docs = []).
  { destruct (filter (fun t => p t) docs); [done | discriminate]. }
  rewrite Hnil in Hceil. vm_compute in Hceil. injection Hceil as <-.
  repeat split.
Qed.

Lemma no_match_next_inert_witness :
  exists st',
    Dashboard.fetchTransactions Samples.scenario
      (Dashboard.mkState (Some []) 1 (Some 1) "sofa" 3
         (Json (Statistics.mk false 0 0 0)) (Json [])) 1 = Some st'
    /\ Dashboard.totalPages st' = Some 0
    /\ Dashboard.click_next st' = st'.
Proof.
  eexists. split; [vm_compute; reflexivity|].
  match goal with |- Dashboard.totalPages ?s = _ /\ _ =>
    destruct (no_match_next_inert Samples.scenario
                (Dashboard.mkState (Some []) 1 (Some 1) "sofa" 3
                   (Json (Statistics.mk false 0 0 0)) (Json [])) s)
      as (H1 & _ & _ & H2); [vm_compute; reflexivity | reflexivity |]
  end.
  split; [exact H1 | exact H2].
Defined.

(** X20: every page the pagination lets through shows rows: from a
    state that holds a fetched listing, a page change that
    [handlePageChange] accepts is followed by a fetch that stores
    between 1 and 10 records, for that page, with the same
    totalPages. *)
Theorem accepted_page_shows_rows (docs : list Transaction)
    (st st1 : Dashboard.state) (page tp newPage : Z) :
  Dashboard.fetchTransactions docs st page = Some st1 ->
  Dashboard.totalPages st1 = Some tp ->
  1 <= newPage <= tp ->
  exists st2 rows,
    Dashboard.page_effect docs (Dashboard.handlePageChange st1 newPage)
    = Some st2
    /\ Dashboard.transactions st2 = Some rows
    /\ (1 <= length rows <= 10)%nat
    /\ Dashboard.currentPage st2 = newPage
    /\ Dashboard.totalPages st2 = Some tp.
Proof.
  intros Hfetch Htp Hnew.
  destruct (fetch_listing docs st st1 page tp Hfetch Htp)
    as (p & Hp & Hsafe & Hpage & Hceil & ->).
  pose proof (ceil_div_bounds _ _ Hceil) as Hb.
  unfold Dashboard.handlePageChange. cbn [Dashboard.totalPages].
  rewrite (proj2 (Z.leb_le 1 newPage)), (proj2 (Z.leb_le newPage tp)) by lia.
  cbn [andb]. unfold Dashboard.page_effect, Dashboard.fetchTransactions,
    Dashboard.listing_request.
  cbn [Dashboard.searchQuery Dashboard.selectedMonth Dashboard.currentPage
       Dashboard.statistics Dashboard.barChartData].
  rewrite Hsafe.
  rewrite (listing_body docs _ _ (Some newPage) (Some 10) p Hp)
    by (simpl; lia).
  cbn [Listing.totalPages Listing.transactions default from_option id].
  rewrite Hceil. rewrite limit_take by lia.
  eexists _, _. split; [reflexivity|].
  cbn [Dashboard.fetchBarChartData Dashboard.fetchStatistics
       Dashboard.transactions Dashboard.currentPage Dashboard.totalPages].
  split; [reflexivity|]. split; [|done].
  rewrite length_take, length_drop. lia.
Qed.

Lemma accepted_page_shows_rows_witness :
  exists st2,
    Dashboard.page_effect (Samples.march 12 1)
      (Dashboard.handlePageChange
         (Dashboard.mkState (Some (Samples.march 10 1)) 1 (Some 2) "" 3
            (Json (Statistics.mk false 0 0 0)) (Json [])) 2)
    = Some st2
    /\ Dashboard.transactions st2 = Some (Samples.march 2 11).
Proof.
  destruct (accepted_page_shows_rows (Samples.march 12 1) Dashboard.initial
              (Dashboard.mkState (Some (Samples.march 10 1)) 1 (Some 2) "" 3
                 (Json (Statistics.mk false 0 0 0)) (Json [])) 1 2 2)
    as (st2 & rows & Hst2 & Hrows & _); [vm_compute; reflexivity | reflexivity
                                        | lia |].
  exists st2. split; [exact Hst2|].
  pose proof Hst2 as H. vm_compute in H. injection H as <-. reflexivity.
Defined.

(** X21: a search text that begins with [*] or [?] is refused by the
    server, and the dashboard stores what the error body lacks:
    transactions and totalPages are undefined, after which
    [handlePageChange] ignores every page. *)
Theorem search_error_leaves_undefined (docs : list Transaction)
    (st : Dashboard.state) (c : ascii) (s : string) (page : Z) :
  Dashboard.searchQuery st = String c s ->
  In c (list_ascii_of_string "*?") ->
  Spec.plain s = true -> Dashboard.query_safe s = true ->
  exists st',
    Dashboard.fetchTransactions docs st page = Some st'
    /\ Dashboard.transactions st' = None
    /\ Dashboard.totalPages st' = None
    /\ Dashboard.currentPage st' = page
    /\ forall newPage, Dashboard.handlePageChange st' newPage = st'.
Proof.
  intros Hq Hc Hplain Hsafe. unfold Dashboard.fetchTransactions.
  assert (Hsafe' : Dashboard.query_safe (Dashboard.searchQuery st) = true).
  { rewrite Hq. unfold Dashboard.query_safe in *.
    cbn [list_ascii_of_string forallb]. rewrite Hsafe, andb_true_r.
    cbn [list_ascii_of_string In] in Hc.
    destruct Hc as [<-|[<-|[]]]; reflexivity. }
  rewrite Hsafe'. unfold Dashboard.listing_request. rewrite Hq.
  unfold App.api_transactions, Mongo.find, Mongo.prepare.
  cbn [Req.month Req.search Req.page Req.perPage App.build_query Mongo.or
       JS.truthy Mongo.pattern].
  rewrite compile_leading_quantifier;
    [|cbn [list_ascii_of_string In] in *; tauto | done].
  eexists. split; [reflexivity|]. by repeat split.
Qed.

Lemma search_error_leaves_undefined_witness :
  exists st',
    Dashboard.fetchTransactions Samples.scenario
      (Dashboard.mkState (Some []) 1 (Some 1) "?" 3
         (Json (Statistics.mk false 0 0 0)) (Json [])) 1 = Some st'
    /\ Dashboard.transactions st' = None.
Proof.
  destruct (search_error_leaves_undefined Samples.scenario
              (Dashboard.mkState (Some []) 1 (Some 1) "?" 3
                 (Json (Statistics.mk false 0 0 0)) (Json [])) "?" "" 1)
    as (st' & H1 & H2 & _); [reflexivity | simpl; tauto | reflexivity..|].
  by exists st'.
Defined.

(** ** Statistics and chart in the dashboard *)



Lemma zip_entries (entries : list Bar.t) :
  zip_with Bar.mk (map Bar.range entries) (map Bar.count entries) = entries.
Proof.
  induction entries as [|[r c] entries IH]; [done|]. simpl. by rewrite IH.
Qed.

(** X23: the chart that [BarChart] draws from the fetched histogram has
    the ten range labels in order and one data point under each; the
    data add up to the number of records of the selected month, and
    labels and data pair up to the entries they came from. *)
Theorem dashboard_chart (docs : list Transaction) (st : Dashboard.state) :
  0 <= Dashboard.selectedMonth st < 10 ^ 21 ->
  exists entries,
    Dashboard.barChartData (Dashboard.fetchBarChartData docs st) = Json entries
    /\ Dashboard.labels (Dashboard.barChart entries)
       = ["0 - 100"; "101 - 200"; "201 - 300"; "301 - 400"; "401 - 500";
          "501 - 600"; "601 - 700"; "701 - 800"; "801 - 900";
          "901 - above"]%string
    /\ length (Dashboard.data (Dashboard.barChart entries)) = 10%nat
    /\ sum_list (Dashboard.data (Dashboard.barChart entries))
       = length (Spec.month_records (Dashboard.selectedMonth st) docs)
    /\ zip_with Bar.mk (Dashboard.labels (Dashboard.barChart entries))
         (Dashboard.data (Dashboard.barChart entries)) = entries.
Proof.
  intros Hm. cbn [Dashboard.fetchBarChartData Dashboard.barChartData].
  rewrite bar_chart_overlay.
  assert (Hparse : JS.parseInt_param (Req.month (Dashboard.month_request st))
                   = Some (Dashboard.selectedMonth st))
    by (by apply template_parseInt).
  rewrite Hparse, match_month_records.
  eexists. split; [reflexivity|].
  cbn [Dashboard.barChart Dashboard.labels Dashboard.data].
  split; [apply overlay_ranges|].
  split; [by rewrite length_map, overlay_length|].
  split; [apply overlay_counts_total | apply zip_entries].
Qed.

Lemma dashboard_chart_witness :
  exists entries,
    Dashboard.barChartData
      (Dashboard.fetchBarChartData Samples.scenario Dashboard.initial)
    = Json entries
    /\ sum_list (Dashboard.data (Dashboard.barChart entries)) = 2%nat.
Proof.
  destruct (dashboard_chart Samples.scenario Dashboard.initial)
    as (entries & He & _ & _ & Hsum & _); [simpl; lia|].
  exists entries. split; [exact He|]. rewrite Hsum. by vm_compute.
Defined.
